(** * Scrapy_example: the product scraper and analyzer of [scrapy.py]

    A shallow embedding of the extraction loops of [AmazonScraper] and
    [FlipkartScraper], of the [ProductDetails] record and of
    [ProductAnalyzer.analyze_product], with the properties of the design
    document proved (or refuted) on it.

    Conventions of the embedding:
    - a Python [float] is an IEEE 754 binary64 number, [spec_float] with
      precision 53 and maximal exponent 1024; arithmetic is the correctly
      rounded one of [SpecFloat];
    - a Python [str] is a [string] holding the UTF-8 encoding of the text;
      the whitespace and the digits recognised by [strip], [split], [float]
      and [int] are the ASCII ones;
    - a Python exception is a constructor of [exn]; a computation that can
      raise returns a [pyresult];
    - the browser is an oracle: what [driver.get] and the waits answer. *)

From Stdlib Require Import ZArith Bool List Lia Ascii.
From Stdlib Require Import Floats.SpecFloat.
From stdpp Require Import base option list strings gmap.

Local Open Scope Z_scope.

(** ** Python floats *)

Module PyFloat.

Definition prec : Z := 53.
Definition emax : Z := 1024.

Definition float : Type := spec_float.

Definition zero : float := S754_zero false.
Definition nan : float := S754_nan.
Definition infinity (s : bool) : float := S754_infinity s.

Definition add : float -> float -> float := SFadd prec emax.
Definition div : float -> float -> float := SFdiv prec emax.
Definition ltb : float -> float -> bool := SFltb.

(** [float(n)] for an integer [n]. *)
Definition of_Z (n : Z) : float := binary_normalize prec emax n 0 false.

(** The binary64 number nearest to [(-1)^s * n * 10^e10], ties to even:
    what [strtod] returns for a decimal numeral. *)
Definition of_decimal (s : bool) (n : Z) (e10 : Z) : float :=
  match n with
  | Zpos p =>
      if 0 <=? e10
      then binary_round prec emax s (p * Z.to_pos (10 ^ e10)) 0
      else
        let '(q, e, l) :=
          SFdiv_core_binary prec emax (Zpos p) 0 (10 ^ (- e10)) 0 in
        binary_round_aux prec emax s q e l
  | _ => S754_zero s
  end.

(** [x > 0], [x] a float and [0] the integer. *)
Definition gt_zero (x : float) : bool := ltb zero x.


(** Nearest integer to [num / den], ties to even ([den > 0]). *)
Definition div_half_even (num den : Z) : Z :=
  let q := num / den in
  let r := num mod den in
  match 2 * r ?= den with
  | Lt => q
  | Gt => q + 1
  | Eq => if Z.even q then q else q + 1
  end.

(** [round(x, 2)]: the exact value of [x] is rounded to two decimals, ties
    to even, and the decimal numeral obtained is read back as a float.
    Infinities, NaN and zeros are returned unchanged. *)
Definition round2 (x : float) : float :=
  match x with
  | S754_finite s m e =>
      let n :=
        if 0 <=? e then Zpos m * 100 * 2 ^ e
        else div_half_even (Zpos m * 100) (2 ^ (- e)) in
      of_decimal s n (-2)
  | _ => x
  end.

End PyFloat.

(** ** Exceptions *)

(** The exceptions the program meets; all are subclasses of [Exception].
    [WebDriverException] stands for every driver error other than the
    timeout of a wait. *)
Inductive exn : Type :=
  | TimeoutException
  | WebDriverException
  | ValueError
  | IndexError.

Inductive pyresult (A : Type) : Type :=
  | Return (a : A)
  | Raise (e : exn).
Arguments Return {A} a.
Arguments Raise {A} e.

(** ** Python strings *)

Module PyStr.

(** [c.isspace()] on ASCII: tab to carriage return, the four separators
    and the space. *)
Definition is_space (c : ascii) : bool :=
  let n := N_of_ascii c in
  (((9 <=? n) && (n <=? 13)) || ((28 <=? n) && (n <=? 32)))%N.

Definition is_empty (s : string) : bool :=
  match s with EmptyString => true | _ => false end.

Fixpoint lstrip (s : string) : string :=
  match s with
  | String c s' => if is_space c then lstrip s' else s
  | EmptyString => EmptyString
  end.

Fixpoint rstrip (s : string) : string :=
  match s with
  | String c s' =>
      let r := rstrip s' in
      if is_space c && is_empty r then EmptyString else String c r
  | EmptyString => EmptyString
  end.

(** [s.strip()] *)
Definition strip (s : string) : string := rstrip (lstrip s).

(** [s.split()]: the maximal runs of characters that are not whitespace;
    [cur] is the run being read. *)
Fixpoint split_from (cur : string) (s : string) : list string :=
  match s with
  | String c s' =>
      if is_space c
      then (if is_empty cur then split_from "" s' else cur :: split_from "" s')
      else split_from (cur +:+ String c "") s'
  | EmptyString => if is_empty cur then [] else [cur]
  end.

Definition split (s : string) : list string := split_from "" s.

(** [l[0]] *)
Definition first_item {A} (l : list A) : pyresult A :=
  match l with
  | x :: _ => Return x
  | [] => Raise IndexError
  end.

(** [s.replace(old, new)] for a non-empty [old]: the occurrences of [old]
    are replaced from left to right; [skip] counts the characters of the
    occurrence just replaced that are still to be passed over. *)
Fixpoint replace_from (old new : string) (skip : nat) (s : string) : string :=
  match s with
  | String c s' =>
      match skip with
      | S k => replace_from old new k s'
      | O =>
          if String.prefix old s
          then new +:+ replace_from old new (pred (String.length old)) s'
          else String c (replace_from old new O s')
      end
  | EmptyString => EmptyString
  end.

Definition replace (old new s : string) : string := replace_from old new O s.

Definition digit_of (c : ascii) : option Z :=
  let n := N_of_ascii c in
  if ((48 <=? n) && (n <=? 57))%N then Some (Z.of_N n - 48) else None.

(** ASCII lower case, for the case-insensitive [inf] and [nan]. *)
Definition lower_char (c : ascii) : ascii :=
  let n := N_of_ascii c in
  if ((65 <=? n) && (n <=? 90))%N then ascii_of_N (n + 32) else c.

Fixpoint lower (s : string) : string :=
  match s with
  | String c s' => String (lower_char c) (lower s')
  | EmptyString => EmptyString
  end.

(** An optional sign; [true] is minus. *)
Definition parse_sign (s : string) : bool * string :=
  match s with
  | String "-" r => (true, r)
  | String "+" r => (false, r)
  | _ => (false, s)
  end.

(** The rest of a [digitpart ::= digit (["_"] digit)*] after its first
    digit: the value read so far, the number of digits, what is left. *)
Fixpoint digits_from (acc cnt : Z) (s : string) : Z * Z * string :=
  match s with
  | String c r =>
      match digit_of c with
      | Some d => digits_from (10 * acc + d) (cnt + 1) r
      | None =>
          match c, r with
          | "_"%char, String c' r' =>
              match digit_of c' with
              | Some d => digits_from (10 * acc + d) (cnt + 1) r'
              | None => (acc, cnt, s)
              end
          | _, _ => (acc, cnt, s)
          end
      end
  | EmptyString => (acc, cnt, s)
  end.

Definition digitpart (s : string) : option (Z * Z * string) :=
  match s with
  | String c r =>
      match digit_of c with
      | Some d => Some (digits_from d 1 r)
      | None => None
      end
  | EmptyString => None
  end.

(** [number ::= [digitpart] "." digitpart | digitpart ["."]]: the digits
    as one integer, the number of digits after the point, what is left. *)
Definition parse_number (s : string) : option (Z * Z * string) :=
  match digitpart s with
  | Some (i, _, String "." r) =>
      match digitpart r with
      | Some (f, k, r') => Some (i * 10 ^ k + f, k, r')
      | None => Some (i, 0, r)
      end
  | Some (i, _, r) => Some (i, 0, r)
  | None =>
      match s with
      | String "." r => digitpart r
      | _ => None
      end
  end.

(** [exponent ::= ("e" | "E") [sign] digitpart], or nothing; the whole
    rest of the numeral has to be consumed. *)
Definition parse_exponent (s : string) : option Z :=
  match s with
  | EmptyString => Some 0
  | String c r =>
      if (Ascii.eqb c "e" || Ascii.eqb c "E")%bool
      then
        let '(sg, r') := parse_sign r in
        match digitpart r' with
        | Some (v, _, EmptyString) => Some (if sg then - v else v)
        | _ => None
        end
      else None
  end.

(** [float(s)] *)
Definition py_float (s : string) : pyresult PyFloat.float :=
  let '(sg, r) := parse_sign (strip s) in
  let w := lower r in
  if (String.eqb w "inf" || String.eqb w "infinity")%bool
  then Return (PyFloat.infinity sg)
  else if String.eqb w "nan" then Return PyFloat.nan
  else
    match parse_number r with
    | Some (m, k, r') =>
        match parse_exponent r' with
        | Some e => Return (PyFloat.of_decimal sg m (e - k))
        | None => Raise ValueError
        end
    | None => Raise ValueError
    end.

(** [int(s)] *)
Definition py_int (s : string) : pyresult Z :=
  let '(sg, r) := parse_sign (strip s) in
  match digitpart r with
  | Some (v, _, EmptyString) => Return (if sg then - v else v)
  | _ => Raise ValueError
  end.

End PyStr.

(** ** The clock *)

(** A reading of the wall clock, as [datetime.now()] returns it. *)
Record datetime : Type := {
  year : nat;
  month : nat;
  day : nat;
  hour : nat;
  minute : nat;
  second : nat;
  microsecond : nat
}.

Definition digit_char (n : nat) : ascii := ascii_of_nat (48 + n mod 10).

Definition pad2 (n : nat) : string :=
  String (digit_char (n / 10)) (String (digit_char n) "").

Definition pad4 (n : nat) : string :=
  String (digit_char (n / 1000)) (String (digit_char (n / 100)) (pad2 n)).

(** [dt.strftime("%Y-%m-%d %H:%M:%S")] *)
Definition strftime (dt : datetime) : string :=
  pad4 (year dt) +:+ "-" +:+ pad2 (month dt) +:+ "-" +:+ pad2 (day dt) +:+ " "
  +:+ pad2 (hour dt) +:+ ":" +:+ pad2 (minute dt) +:+ ":" +:+ pad2 (second dt).

(** ** ProductDetails *)

Record ProductDetails : Type := {
  price : PyFloat.float;
  stock_status : string;
  rating : PyFloat.float;
  review_count : Z;
  seller : string;
  platform : string;
  url : string;
  timestamp : string
}.

(** What the [class ProductDetails] statement leaves behind: the default
    of [timestamp] is an expression of the class body, so it is evaluated
    by the class statement and its value is stored in the class. The other
    defaults are literals. *)
Record ProductDetails_class : Type := {
  default_timestamp : string
}.

(** The class statement, executed when the clock reads [now]. *)
Definition define_ProductDetails (now : datetime) : ProductDetails_class :=
  {| default_timestamp := strftime now |}.

(** [ProductDetails(platform=p, url=u)], called when the clock reads [now].
    The generated [__init__] fills the fields that are not given from the
    defaults stored in the class; it does not read the clock. *)
Definition ProductDetails_init (cls : ProductDetails_class) (now : datetime)
    (p u : string) : ProductDetails :=
  {| price := PyFloat.zero;
     stock_status := "Unknown";
     rating := PyFloat.zero;
     review_count := 0;
     seller := "Unknown";
     platform := p;
     url := u;
     timestamp := default_timestamp cls |}.

Definition with_price (v : PyFloat.float) (d : ProductDetails) : ProductDetails :=
  {| price := v; stock_status := stock_status d; rating := rating d;
     review_count := review_count d; seller := seller d;
     platform := platform d; url := url d; timestamp := timestamp d |}.

Definition with_stock_status (v : string) (d : ProductDetails) : ProductDetails :=
  {| price := price d; stock_status := v; rating := rating d;
     review_count := review_count d; seller := seller d;
     platform := platform d; url := url d; timestamp := timestamp d |}.

Definition with_rating (v : PyFloat.float) (d : ProductDetails) : ProductDetails :=
  {| price := price d; stock_status := stock_status d; rating := v;
     review_count := review_count d; seller := seller d;
     platform := platform d; url := url d; timestamp := timestamp d |}.

Definition with_review_count (v : Z) (d : ProductDetails) : ProductDetails :=
  {| price := price d; stock_status := stock_status d; rating := rating d;
     review_count := v; seller := seller d;
     platform := platform d; url := url d; timestamp := timestamp d |}.

(** ** The browser *)

(** An element of the page: what reading its [text] property gives. *)
Inductive WebElement : Type :=
  | Element (text : pyresult string).

(** A loaded page: for a CSS selector, what
    [WebDriverWait(driver, timeout).until(presence_of_element_located(..))]
    gives, the element or the exception raised ([TimeoutException] when no
    element shows up in time). *)
Definition Page : Type := string -> pyresult WebElement.

(** A driver session: [get url] loads a page or raises. *)
Record Driver : Type := {
  get : string -> pyresult Page
}.

(** ** Computations on the record being filled *)

(** The body of [scrape_product] assigns to the fields of [details] and can
    raise at any point; what was assigned before the exception stays. *)
Definition Scrape (A : Type) : Type :=
  ProductDetails -> pyresult A * ProductDetails.

#[global] Instance Scrape_ret : MRet Scrape :=
  fun A a d => (Return a, d).

#[global] Instance Scrape_bind : MBind Scrape :=
  fun A B f c d =>
    match c d with
    | (Return a, d') => f a d'
    | (Raise e, d') => (Raise e, d')
    end.

Definition lift {A} (r : pyresult A) : Scrape A := fun d => (r, d).

Definition assign (f : ProductDetails -> ProductDetails) : Scrape unit :=
  fun d => (Return tt, f d).

Definition read_details : Scrape ProductDetails := fun d => (Return d, d).

(** [try: c  except (classes): h] *)
Definition try_except {A} (c : Scrape A) (catches : exn -> bool)
    (h : Scrape A) : Scrape A :=
  fun d =>
    match c d with
    | (Raise e, d') => if catches e then h d' else (Raise e, d')
    | r => r
    end.

Definition is_ValueError (e : exn) : bool :=
  match e with ValueError => true | _ => false end.

Definition is_ValueError_or_IndexError (e : exn) : bool :=
  match e with ValueError | IndexError => true | _ => false end.

(** All of [exn] derives from [Exception]. *)
Definition is_Exception (e : exn) : bool := true.

(** ** SeleniumScraperBase *)

Definition _wait_and_get_element (page : Page) (selector : string)
    : pyresult (option WebElement) :=
  match page selector with
  | Return element => Return (Some element)
  | Raise TimeoutException => Return None
  | Raise e => Raise e
  end.

Definition _safe_get_text (element : option WebElement) : string :=
  match element with
  | Some (Element (Return t)) => PyStr.strip t
  | Some (Element (Raise _)) => ""
  | None => ""
  end.

(** How one turn of a [for] loop ends. *)
Inductive loop_control : Type := Break | Continue.

(** [float(price_text.replace('₹', '').replace(',', ''))] *)
Definition parse_price (price_text : string) : pyresult PyFloat.float :=
  PyStr.py_float (PyStr.replace "," "" (PyStr.replace "₹" "" price_text)).

(** The price loop, the same text in both scrapers:
    [for selector in price_selectors: ...]. *)
Fixpoint price_loop (page : Page) (price_selectors : list string) : Scrape unit :=
  match price_selectors with
  | [] => mret tt
  | selector :: rest =>
      price_elem ← lift (_wait_and_get_element page selector);
      ctl ← match price_elem with
            | Some _ =>
                let price_text := _safe_get_text price_elem in
                try_except
                  (v ← lift (parse_price price_text);
                   assign (with_price v);;
                   mret Break)
                  is_ValueError
                  (mret Continue)
            | None => mret Continue
            end;
      match ctl with
      | Break => mret tt
      | Continue => price_loop page rest
      end
  end.

(** The review count, the same text in both scrapers:
    [int(review_text.split()[0].replace(',', ''))]. *)
Definition parse_review_count (review_text : string) : pyresult Z :=
  match PyStr.first_item (PyStr.split review_text) with
  | Return tok => PyStr.py_int (PyStr.replace "," "" tok)
  | Raise e => Raise e
  end.

Definition review_step (page : Page) (selector : string) : Scrape unit :=
  review_elem ← lift (_wait_and_get_element page selector);
  match review_elem with
  | Some _ =>
      let review_text := _safe_get_text review_elem in
      try_except
        (v ← lift (parse_review_count review_text);
         assign (with_review_count v))
        is_ValueError_or_IndexError
        (mret tt)
  | None => mret tt
  end.

(** [try: body; return details  except Exception: return details], run on
    a fresh record. *)
Definition run_scrape (details : ProductDetails) (body : Scrape unit)
    : pyresult ProductDetails :=
  fst (try_except (body;; read_details) is_Exception read_details details).

(** ** AmazonScraper *)

Module AmazonScraper.

Definition price_selectors : list string :=
  [ "span.a-price-whole";
    "span.a-price[data-a-size=xl] ";
    "div.a-align-center, .aok-align-center" ].

Definition stock_step (page : Page) : Scrape unit :=
  stock_elem ← lift (_wait_and_get_element page "#availability");
  match stock_elem with
  | Some _ => assign (with_stock_status (_safe_get_text stock_elem))
  | None => mret tt
  end.

(** [float(rating_text.split()[0])] *)
Definition parse_rating (rating_text : string) : pyresult PyFloat.float :=
  match PyStr.first_item (PyStr.split rating_text) with
  | Return tok => PyStr.py_float tok
  | Raise e => Raise e
  end.

Definition rating_step (page : Page) : Scrape unit :=
  rating_elem ← lift (_wait_and_get_element page "span.a-icon-alt");
  match rating_elem with
  | Some _ =>
      let rating_text := _safe_get_text rating_elem in
      try_except
        (v ← lift (parse_rating rating_text);
         assign (with_rating v))
        is_ValueError_or_IndexError
        (mret tt)
  | None => mret tt
  end.

(** The statements under [try:], from [self.driver.get(url)] on. The
    sleep between the navigation and the first lookup changes no value. *)
Definition body (driver : Driver) (u : string) : Scrape unit :=
  page ← lift (get driver u);
  price_loop page price_selectors;;
  stock_step page;;
  rating_step page;;
  review_step page "#acrCustomerReviewText".

Definition scrape_product (cls : ProductDetails_class) (driver : Driver)
    (now : datetime) (u : string) : pyresult ProductDetails :=
  run_scrape (ProductDetails_init cls now "Amazon" u) (body driver u).

End AmazonScraper.

(** ** FlipkartScraper *)

Module FlipkartScraper.

Definition price_selectors : list string :=
  [ "div.C7fEHH ";
    "div.UOCQB1";
    "div.hl05eU .Nx9bqj" ].

Definition stock_step (page : Page) : Scrape unit :=
  stock_elem ← lift (_wait_and_get_element page "._16FRp0");
  assign (with_stock_status
            (match stock_elem with
             | Some _ => "Out of Stock"
             | None => "In Stock"
             end)).

(** [float(rating_text)] *)
Definition parse_rating (rating_text : string) : pyresult PyFloat.float :=
  PyStr.py_float rating_text.

Definition rating_step (page : Page) : Scrape unit :=
  rating_elem ← lift (_wait_and_get_element page "div.XQDdHH");
  match rating_elem with
  | Some _ =>
      let rating_text := _safe_get_text rating_elem in
      try_except
        (v ← lift (parse_rating rating_text);
         assign (with_rating v))
        is_ValueError
        (mret tt)
  | None => mret tt
  end.

Definition body (driver : Driver) (u : string) : Scrape unit :=
  page ← lift (get driver u);
  price_loop page price_selectors;;
  stock_step page;;
  rating_step page;;
  review_step page "span.Y1HWO0".

Definition scrape_product (cls : ProductDetails_class) (driver : Driver)
    (now : datetime) (u : string) : pyresult ProductDetails :=
  run_scrape (ProductDetails_init cls now "Flipkart" u) (body driver u).

End FlipkartScraper.

(** ** ProductAnalyzer *)

(** The values stored in the report. *)
#[local] Unset Elimination Schemes.
Inductive pyval : Type :=
  | PNone
  | PStr (s : string)
  | PInt (n : Z)
  | PFloat (x : PyFloat.float)
  | PList (l : list pyval)
  | PDict (items : list (string * pyval)).
#[local] Set Elimination Schemes.

(** [vars(r)] *)
Definition vars (r : ProductDetails) : pyval :=
  PDict [ ("price", PFloat (price r));
          ("stock_status", PStr (stock_status r));
          ("rating", PFloat (rating r));
          ("review_count", PInt (review_count r));
          ("seller", PStr (seller r));
          ("platform", PStr (platform r));
          ("url", PStr (url r));
          ("timestamp", PStr (timestamp r)) ].

(** [min(l, key=key)]: the running minimum is replaced when the key of the
    next item is [<] its key. *)
Definition py_min {A} (key : A -> PyFloat.float) (l : list A) : pyresult A :=
  match l with
  | x :: xs =>
      Return (fold_left
                (fun cur y => if PyFloat.ltb (key y) (key cur) then y else cur)
                xs x)
  | [] => Raise ValueError
  end.

(** [max(l, key=key)]: the running maximum is replaced when the key of the
    next item is [>] its key. *)
Definition py_max {A} (key : A -> PyFloat.float) (l : list A) : pyresult A :=
  match l with
  | x :: xs =>
      Return (fold_left
                (fun cur y => if PyFloat.ltb (key cur) (key y) then y else cur)
                xs x)
  | [] => Raise ValueError
  end.

(** [sum(xs)] over floats, from the integer [0]: the floats are added from
    left to right. (CPython 3.12 adds a compensation term, which changes
    nothing for the one or two records a run collects.) *)
Definition py_sum (xs : list PyFloat.float) : PyFloat.float :=
  fold_left PyFloat.add xs PyFloat.zero.

(** [len(l)] as the float it is converted to by [/]. *)
Definition py_len {A} (l : list A) : PyFloat.float :=
  PyFloat.of_Z (Z.of_nat (length l)).

Inductive Scraper : Type :=
  | Amazon (driver : Driver)
  | Flipkart (driver : Driver).

Definition scrape_product (cls : ProductDetails_class) (scraper : Scraper)
    (now : datetime) (u : string) : pyresult ProductDetails :=
  match scraper with
  | Amazon driver => AmazonScraper.scrape_product cls driver now u
  | Flipkart driver => FlipkartScraper.scrape_product cls driver now u
  end.

(** [ProductAnalyzer()]: [self.scrapers] *)
Definition ProductAnalyzer_init (amazon flipkart : Driver) : gmap string Scraper :=
  <["flipkart" := Flipkart flipkart]> (<["amazon" := Amazon amazon]> ∅).

(** The first loop of [analyze_product]: [urls.items()] is walked in
    order, a platform without a scraper is passed over, and so is one whose
    scrape raises; [clock k] is the reading of the clock when item [k] is
    reached. *)
Fixpoint collect_results (cls : ProductDetails_class)
    (scrapers : gmap string Scraper) (clock : nat -> datetime) (k : nat)
    (items : list (string * string)) : list ProductDetails :=
  match items with
  | [] => []
  | (pf, u) :: rest =>
      match scrapers !! pf with
      | Some scraper =>
          match scrape_product cls scraper (clock k) u with
          | Return product_details =>
              product_details :: collect_results cls scrapers clock (S k) rest
          | Raise _ => collect_results cls scrapers clock (S k) rest
          end
      | None => collect_results cls scrapers clock (S k) rest
      end
  end.

Definition is_valid (r : ProductDetails) : bool := PyFloat.gt_zero (price r).

(** [[r for r in results if r.price > 0]] *)
Definition valid_results (results : list ProductDetails) : list ProductDetails :=
  List.filter is_valid results.

Definition best_price_entry (r : ProductDetails) : pyval :=
  PDict [ ("platform", PStr (platform r));
          ("price", PFloat (price r));
          ("url", PStr (url r)) ].

Definition highest_rated_entry (r : ProductDetails) : pyval :=
  PDict [ ("platform", PStr (platform r));
          ("rating", PFloat (rating r));
          ("review_count", PInt (review_count r));
          ("url", PStr (url r)) ].

(** [round(sum(r.rating for r in valid) / len(valid), 2)
     if any(r.rating > 0 for r in valid) else 0] *)
Definition average_rating (valid : list ProductDetails) : pyval :=
  if existsb (fun r => PyFloat.gt_zero (rating r)) valid
  then PFloat (PyFloat.round2
                 (PyFloat.div (py_sum (map rating valid)) (py_len valid)))
  else PInt 0.

Definition no_valid_prices : string := "No valid prices found across platforms".

(** The rest of [analyze_product]: the report built from the collected
    records, when the clock reads [now]. *)
Definition build_analysis (now : datetime) (results : list ProductDetails)
    : pyresult (gmap string pyval) :=
  let analysis : gmap string pyval :=
    <["error" := PNone]>
      (<["all_results" := PList (map vars results)]>
         (<["timestamp" := PStr (strftime now)]> ∅)) in
  let valid := valid_results results in
  match valid with
  | _ :: _ =>
      match py_min price valid with
      | Return best_price =>
          match py_max rating valid with
          | Return highest_rated =>
              Return
                (<["average_rating" := average_rating valid]>
                   (<["highest_rated" := highest_rated_entry highest_rated]>
                      (<["best_price" := best_price_entry best_price]> analysis)))
          | Raise e => Raise e
          end
      | Raise e => Raise e
      end
  | [] => Return (<["error" := PStr no_valid_prices]> analysis)
  end.

(** [analyze_product(urls)]. Between the two parts the drivers are closed,
    which changes no value of the report. *)
Definition analyze_product (cls : ProductDetails_class)
    (scrapers : gmap string Scraper) (clock : nat -> datetime)
    (urls : list (string * string)) : pyresult (gmap string pyval) :=
  build_analysis (clock (length urls))
    (collect_results cls scrapers clock O urls).

(** ** Definitions used by the statements *)




(** The text the scrapers read on an element they found. *)
Definition text_of (element : WebElement) : string :=
  _safe_get_text (Some element).

(** The locator matches an element whose text parses as the price [v]. *)
Definition price_found (page : Page) (selector : string) (v : PyFloat.float) : Prop :=
  exists element,
    page selector = Return element /\ parse_price (text_of element) = Return v.

(** The locator is absent, or matches an element whose text does not
    parse. *)
Definition price_skipped (page : Page) (selector : string) : Prop :=
  page selector = Raise TimeoutException \/
  exists element,
    page selector = Return element /\ parse_price (text_of element) = Raise ValueError.

(** [c] keeps the property [I] of the record, however it ends. *)
Definition preserves {A} (I : ProductDetails -> Prop) (c : Scrape A) : Prop :=
  forall d, I d -> I (c d).2.

(** The waits on [page] for the listed selectors end with an element or a
    timeout, not with another driver error. *)
Definition waits_end (page : Page) (selectors : list string) : Prop :=
  forall selector e,
    In selector selectors -> page selector = Raise e -> e = TimeoutException.

Definition driver_of (scraper : Scraper) : Driver :=
  match scraper with Amazon driver | Flipkart driver => driver end.

(** The platform name a scraper gives its records. *)
Definition platform_name (scraper : Scraper) : string :=
  match scraper with Amazon _ => "Amazon" | Flipkart _ => "Flipkart" end.

Definition body_of (scraper : Scraper) (u : string) : Scrape unit :=
  match scraper with
  | Amazon driver => AmazonScraper.body driver u
  | Flipkart driver => FlipkartScraper.body driver u
  end.

Definition parse_rating_of (scraper : Scraper) : string -> pyresult PyFloat.float :=
  match scraper with
  | Amazon _ => AmazonScraper.parse_rating
  | Flipkart _ => FlipkartScraper.parse_rating
  end.

Definition price_selectors_of (scraper : Scraper) : list string :=
  match scraper with
  | Amazon _ => AmazonScraper.price_selectors
  | Flipkart _ => FlipkartScraper.price_selectors
  end.

Definition rating_selector_of (scraper : Scraper) : string :=
  match scraper with
  | Amazon _ => "span.a-icon-alt"
  | Flipkart _ => "div.XQDdHH"
  end.

Definition review_selector_of (scraper : Scraper) : string :=
  match scraper with
  | Amazon _ => "#acrCustomerReviewText"
  | Flipkart _ => "span.Y1HWO0"
  end.



Definition stock_selector_of (scraper : Scraper) : string :=
  match scraper with
  | Amazon _ => "#availability"
  | Flipkart _ => "._16FRp0"
  end.


(** ** Sample pages and runs *)

Definition element_with_text (t : string) : pyresult WebElement :=
  Return (Element (Return t)).

(** A product page of the first site: the first price locator shows a text
    that is no number, the second is absent, the third shows the price. *)
Definition sample_amazon_page : Page := fun selector =>
  if String.eqb selector "span.a-price-whole" then element_with_text "N/A"
  else if String.eqb selector "div.a-align-center, .aok-align-center"
       then element_with_text " ₹1,29,900.00 "
  else if String.eqb selector "#availability" then element_with_text "In stock."
  else if String.eqb selector "span.a-icon-alt"
       then element_with_text "4.3 out of 5 stars"
  else if String.eqb selector "#acrCustomerReviewText"
       then element_with_text "1,234 ratings"
  else Raise TimeoutException.

(** A product page of the second site, showing [rating_text] in the
    rating element. *)
Definition sample_flipkart_page (rating_text : string) : Page := fun selector =>
  if String.eqb selector "div.UOCQB1" then element_with_text "₹999"
  else if String.eqb selector "div.XQDdHH" then element_with_text rating_text
  else if String.eqb selector "span.Y1HWO0"
       then element_with_text "12 Ratings & 3 Reviews"
  else Raise TimeoutException.

Definition sample_driver (page : Page) : Driver := {| get := fun _ => Return page |}.

Definition sample_time (h m s : nat) : datetime :=
  {| year := 2024; month := 3; day := 7;
     hour := h; minute := m; second := s; microsecond := 0 |}.

(** The clock of a run: the first scrape starts at 09:05:10, the second at
    09:05:20, the report is built at 09:05:30. *)
Definition sample_clock (k : nat) : datetime :=
  sample_time 9 5 (10 + 10 * k).

Definition sample_scrapers : gmap string Scraper :=
  ProductAnalyzer_init (sample_driver sample_amazon_page)
                       (sample_driver (sample_flipkart_page "4.3")).

Definition sample_urls : list (string * string) :=
  [ ("amazon", "https://www.amazon.in/dp/B0CHX3QBCH");
    ("flipkart", "https://www.flipkart.com/p/itm6ac6485515ae4") ].

Definition sample_record (p : string) : ProductDetails :=
  ProductDetails_init (define_ProductDetails (sample_time 9 0 0))
    (sample_time 9 5 10) p "https://example.org/p".


(** ** The statements about the report *)

(** The rule of the [error] field: without a record of positive price the
    report has the error message and none of the three comparison keys;
    with one it has the three keys and [error] stays [None]. *)
Definition follows_error_rule (results : list ProductDetails)
    (out : pyresult (gmap string pyval)) : Prop :=
  exists analysis,
    out = Return analysis
    /\ ((forall r, In r results -> PyFloat.gt_zero (price r) = false) ->
        analysis !! "error" = Some (PStr "No valid prices found across platforms")
        /\ analysis !! "best_price" = None
        /\ analysis !! "highest_rated" = None
        /\ analysis !! "average_rating" = None)
    /\ ((exists r, In r results /\ PyFloat.gt_zero (price r) = true) ->
        is_Some (analysis !! "best_price")
        /\ is_Some (analysis !! "highest_rated")
        /\ is_Some (analysis !! "average_rating")
        /\ analysis !! "error" = Some PNone).





(** Two records of positive price, rated 4.0 and unrated. *)
Definition sample_results : list ProductDetails :=
  [ with_rating (PyFloat.of_decimal false 40 (-1))
      (with_price (PyFloat.of_decimal false 99900 (-2)) (sample_record "Amazon"));
    with_price (PyFloat.of_decimal false 109900 (-2)) (sample_record "Flipkart") ].

(** ** Further definitions used by the statements *)

(** The first and the last character of a text are whitespace. *)
Definition starts_with_space (s : string) : bool :=
  match s with
  | String c _ => PyStr.is_space c
  | EmptyString => false
  end.

Fixpoint ends_with_space (s : string) : bool :=
  match s with
  | String c EmptyString => PyStr.is_space c
  | String _ s' => ends_with_space s'
  | EmptyString => false
  end.

(** No character of the text is whitespace. *)
Fixpoint no_space (s : string) : bool :=
  match s with
  | String c s' => negb (PyStr.is_space c) && no_space s'
  | EmptyString => true
  end.

(** A page on which the wait of the second price locator of the first
    site ends with a driver error. *)
Definition sample_broken_page : Page := fun selector =>
  if String.eqb selector "span.a-price[data-a-size=xl] " then Raise WebDriverException
  else if String.eqb selector "span.a-price-whole" then element_with_text "₹1,299"
  else Raise TimeoutException.

(** A page of the first site where the price is shown and the wait for
    the availability region ends with a driver error. *)
Definition sample_amazon_page_lost : Page := fun selector =>
  if String.eqb selector "#availability" then Raise WebDriverException
  else sample_amazon_page selector.

(** A page of the second site whose rating element is there, but reading
    its text raises. *)
Definition sample_unreadable_page : Page := fun selector =>
  if String.eqb selector "div.XQDdHH" then Return (Element (Raise WebDriverException))
  else Raise TimeoutException.

(** ** The number formats of [main] *)

(** The decimal digits of [n >= 0], the most significant first; [fuel]
    bounds their number. *)
Fixpoint digits_fuel (fuel : nat) (n : Z) : string :=
  match fuel with
  | O => ""
  | S f =>
      (if n <? 10 then "" else digits_fuel f (n / 10))
      +:+ String (digit_char (Z.to_nat (n mod 10))) ""
  end.

Definition digits (n : Z) : string := digits_fuel (S (Z.to_nat (Z.log2 n))) n.

(** The thousands separators of the [,] format option: a comma before
    every group of three digits, counted from the right. *)
Fixpoint group3 (s : string) : string :=
  match s with
  | String c r =>
      String c
        (if negb (PyStr.is_empty r) && (String.length r mod 3 =? 0)%nat
         then "," +:+ group3 r
         else group3 r)
  | EmptyString => EmptyString
  end.


(** The exact value of a finite float, times 100, rounded to the nearest
    integer, ties to even: the digits of the [.2f] format. *)
Definition hundredths (m : positive) (e : Z) : Z :=
  if 0 <=? e then Zpos m * 100 * 2 ^ e
  else PyFloat.div_half_even (Zpos m * 100) (2 ^ (- e)).

(** [f"{x:,.2f}"] for a float [x]. *)
Definition format_money (x : PyFloat.float) : string :=
  match x with
  | S754_nan => "nan"
  | S754_infinity s => (if s then "-" else "") +:+ "inf"
  | S754_zero s => (if s then "-" else "") +:+ "0.00"
  | S754_finite s m e =>
      let n := hundredths m e in
      (if s then "-" else "") +:+ group3 (digits (n / 100)) +:+ "."
      +:+ pad2 (Z.to_nat (n mod 100))
  end.

(** Every character of the text is a decimal digit. *)
Fixpoint all_digits (s : string) : bool :=
  match s with
  | String c r => match PyStr.digit_of c with Some _ => all_digits r | None => false end
  | EmptyString => true
  end.

(** The number a text of digits denotes, after the digits of [acc]. *)
Fixpoint digits_value (acc : Z) (s : string) : Z :=
  match s with
  | String c r =>
      match PyStr.digit_of c with
      | Some d => digits_value (10 * acc + d) r
      | None => acc
      end
  | EmptyString => acc
  end.

(** No character of the text is [c]. *)
Fixpoint lacks (c : ascii) (s : string) : bool :=
  match s with
  | String c' r => negb (Ascii.eqb c c') && lacks c r
  | EmptyString => true
  end.

(** Every character of the text is an ASCII one. *)
Fixpoint ascii7 (s : string) : bool :=
  match s with
  | String (Ascii _ _ _ _ _ _ _ b7) r => negb b7 && ascii7 r
  | EmptyString => true
  end.

(** ** main *)

(** A piece of the text given to [print]: literal text, or a value with
    the format specification of its replacement field ([""] when the field
    has none). The values are kept as they are; [format_money] and
    [format_count] above are what [,.2f] and [,] make of a float and of an
    integer. *)
Inductive fragment : Type :=
  | Lit (text : string)
  | Val (spec : string) (v : pyval).

(** [bool(v)] *)
Definition truthy (v : pyval) : bool :=
  match v with
  | PNone => false
  | PStr s => negb (PyStr.is_empty s)
  | PInt n => negb (n =? 0)
  | PFloat x => negb (SFeqb x PyFloat.zero)
  | PList l => match l with [] => false | _ => true end
  | PDict items => match items with [] => false | _ => true end
  end.

Fixpoint assoc (key : string) (items : list (string * pyval)) : option pyval :=
  match items with
  | (k, v) :: rest => if String.eqb k key then Some v else assoc key rest
  | [] => None
  end.

(** [v[key]] for a string [key]: the entry of a dictionary; [None] stands
    for the exception raised when the key is missing or [v] is no
    dictionary. *)
Definition subscript (v : pyval) (key : string) : option pyval :=
  match v with
  | PDict items => assoc key items
  | _ => None
  end.

(** The items a [for] loop draws from [v]; [None] when [v] cannot be
    iterated. *)
Definition py_iter (v : pyval) : option (list pyval) :=
  match v with
  | PList l => Some l
  | PDict items => Some (map (fun kv => PStr kv.1) items)
  | PStr s => Some (map (fun c => PStr (String c "")) (String.list_ascii_of_string s))
  | _ => None
  end.

(** A replacement field: the specifications [,.2f] and [,] want a
    number. *)
Definition field (spec : string) (v : pyval) : option fragment :=
  if String.eqb spec "" then Some (Val spec v)
  else match v with
       | PInt _ | PFloat _ => Some (Val spec v)
       | _ => None
       end.

(** A line of [fields], or nothing when one of them raises. *)
Fixpoint line (fields : list (option fragment)) : option (list fragment) :=
  match fields with
  | Some f :: rest => cons f <$> line rest
  | None :: _ => None
  | [] => Some []
  end.

Definition lit (text : string) : option fragment := Some (Lit text).

(** [f"...{v[key]:spec}..."] where [v] itself may have raised. *)
Definition field_of (spec : string) (v : option pyval) (key : string)
    : option fragment :=
  match v with
  | Some d => match subscript d key with
              | Some x => field spec x
              | None => None
              end
  | None => None
  end.

Definition dashes : string := "--------------------------------------------------".

(** The lines printed for one entry of [all_results]. *)
Definition print_result (result : pyval) : option (list (list fragment)) :=
  let r := Some result in
  l1 ← line [lit "
Platform: "; field_of "" r "platform"];
  l2 ← line [lit "Price: ₹"; field_of ",.2f" r "price"];
  l3 ← line [lit "Stock Status: "; field_of "" r "stock_status"];
  l4 ← line [lit "Rating: "; field_of "" r "rating"; lit "/5.0"];
  l5 ← line [lit "Review Count: "; field_of "," r "review_count"];
  l6 ← line [lit "Seller: "; field_of "" r "seller"];
  Some [l1; l2; l3; l4; l5; l6].

Fixpoint print_results (l : list pyval) : option (list (list fragment)) :=
  match l with
  | result :: rest =>
      a ← print_result result;
      b ← print_results rest;
      Some (a ++ b)
  | [] => Some []
  end.

(** The part of [main] after [save_analysis], which prints nothing: the
    lines given to [print], in order, or [None] when an exception ends
    [main]. *)
Definition print_summary (results : gmap string pyval)
    : option (list (list fragment)) :=
  let head := [ [Lit "
Analysis Summary:"]; [Lit dashes] ] in
  summary ←
    (if match results !! "error" with Some e => truthy e | None => false end
     then
       l ← line [lit "Error: "; match results !! "error" with
                                | Some e => field "" e
                                | None => None
                                end];
       Some [l]
     else
       best ←
         match results !! "best_price" with
         | Some _ =>
             l1 ← line [lit "Platform: "; field_of "" (results !! "best_price") "platform"];
             l2 ← line [lit "Price: ₹"; field_of ",.2f" (results !! "best_price") "price"];
             Some [ [Lit "
Best Price:"]; l1; l2 ]
         | None => Some []
         end;
       top ←
         match results !! "highest_rated" with
         | Some _ =>
             l1 ← line [lit "Platform: ";
                        field_of "" (results !! "highest_rated") "platform"];
             l2 ← line [lit "Rating: ";
                        field_of "" (results !! "highest_rated") "rating"; lit "/5.0"];
             l3 ← line [lit "Review Count: ";
                        field_of "," (results !! "highest_rated") "review_count"];
             Some [ [Lit "
Highest Rated:"]; l1; l2; l3 ]
         | None => Some []
         end;
       avg ←
         match results !! "average_rating" with
         | Some a =>
             l ← line [lit "
Average Rating Across Platforms: "; field "" a; lit "/5.0"];
             Some [l]
         | None => Some []
         end;
       Some (best ++ top ++ avg));
  all ← results !! "all_results";
  items ← py_iter all;
  details ← print_results items;
  Some (head ++ summary ++ [ [Lit "
Detailed Results:"]; [Lit dashes] ] ++ details).

(** The two entries of [urls] in [main]. *)
Definition main_urls : list (string * string) :=
  [ ("amazon", "https://www.amazon.in/Apple-iPhone-15-128GB-Black/dp/B0CHX3QBCH");
    ("flipkart",
     "https://www.flipkart.com/apple-iphone-15-black-128-gb/p/itm6ac6485515ae4") ].

(** [main()], with the two browser sessions [ProductAnalyzer()] opens:
    what it prints. *)
Definition main (cls : ProductDetails_class) (amazon flipkart : Driver)
    (clock : nat -> datetime) : option (list (list fragment)) :=
  match analyze_product cls (ProductAnalyzer_init amazon flipkart) clock main_urls with
  | Return results => print_summary results
  | Raise _ => None
  end.

(** The lines [main] prints for a record. *)
Definition record_lines (r : ProductDetails) : list (list fragment) :=
  [ [Lit "
Platform: "; Val "" (PStr (platform r))];
    [Lit "Price: ₹"; Val ",.2f" (PFloat (price r))];
    [Lit "Stock Status: "; Val "" (PStr (stock_status r))];
    [Lit "Rating: "; Val "" (PFloat (rating r)); Lit "/5.0"];
    [Lit "Review Count: "; Val "," (PInt (review_count r))];
    [Lit "Seller: "; Val "" (PStr (seller r))] ].

(** The lines [main] prints for the comparison of the valid records. *)
Definition comparison_lines (best top : ProductDetails) (avg : pyval)
    : list (list fragment) :=
  [ [Lit "
Best Price:"];
    [Lit "Platform: "; Val "" (PStr (platform best))];
    [Lit "Price: ₹"; Val ",.2f" (PFloat (price best))];
    [Lit "
Highest Rated:"];
    [Lit "Platform: "; Val "" (PStr (platform top))];
    [Lit "Rating: "; Val "" (PFloat (rating top)); Lit "/5.0"];
    [Lit "Review Count: "; Val "," (PInt (review_count top))];
    [Lit "
Average Rating Across Platforms: "; Val "" avg; Lit "/5.0"] ].

(** The lines [main] prints around the summary and the records. *)
Definition printed (summary : list (list fragment)) (results : list ProductDetails)
    : list (list fragment) :=
  [ [Lit "
Analysis Summary:"]; [Lit dashes] ]
  ++ summary
  ++ [ [Lit "
Detailed Results:"]; [Lit dashes] ]
  ++ concat (map record_lines results).
(** * Properties *)

(** ** The order of the floats *)








(** ** Computations on the record *)

Section ScrapeLaws.

Context {A B : Type}.

Lemma bind_Raise (c : Scrape A) (f : A -> Scrape B) d e d' :
  c d = (Raise e, d') -> (c ≫= f) d = (Raise e, d').
Proof. intros H. unfold mbind, Scrape_bind. rewrite H. reflexivity. Qed.

Lemma preserves_ret (I : ProductDetails -> Prop) (a : A) :
  preserves I (mret a : Scrape A).
Proof. intros d Hd. exact Hd. Qed.

Lemma preserves_bind (I : ProductDetails -> Prop) (c : Scrape A)
    (f : A -> Scrape B) :
  preserves I c -> (forall a, preserves I (f a)) -> preserves I (c ≫= f).
Proof.
  intros Hc Hf d Hd. unfold mbind, Scrape_bind.
  specialize (Hc d Hd). destruct (c d) as [[a|e] d']; cbn in *.
  - apply Hf, Hc.
  - exact Hc.
Qed.

End ScrapeLaws.

Lemma seq_Return {A} (c : Scrape unit) (k : Scrape A) d d' :
  c d = (Return tt, d') -> (c;; k) d = k d'.
Proof. intros H. unfold mbind, Scrape_bind. rewrite H. reflexivity. Qed.

Lemma bind_assoc_unit (c1 c2 : Scrape unit) (k : Scrape unit) d :
  (c1;; c2;; k) d = ((c1;; c2);; k) d.
Proof.
  unfold mbind, Scrape_bind. destruct (c1 d) as [[[]|e] d']; reflexivity.
Qed.

Lemma run_scrape_state (d : ProductDetails) (body : Scrape unit) :
  run_scrape d body = Return (body d).2.
Proof.
  unfold run_scrape, try_except, mbind, Scrape_bind, read_details.
  destruct (body d) as [[[]|e] d']; reflexivity.
Qed.

(** ** The price loop *)

Lemma price_loop_skip (page : Page) (selector : string) (rest : list string) d :
  price_skipped page selector ->
  price_loop page (selector :: rest) d = price_loop page rest d.
Proof.
  intros [H | (element & H & Hp)];
    cbn [price_loop]; unfold mbind, Scrape_bind, lift, _wait_and_get_element, try_except;
    rewrite H; [reflexivity |].
  fold (text_of element). rewrite Hp. reflexivity.
Qed.

Lemma price_loop_found (page : Page) (selector : string) (rest : list string) d v :
  price_found page selector v ->
  price_loop page (selector :: rest) d = (Return tt, with_price v d).
Proof.
  intros (element & H & Hp).
  cbn [price_loop]; unfold mbind, Scrape_bind, lift, _wait_and_get_element, try_except.
  rewrite H. fold (text_of element). rewrite Hp. reflexivity.
Qed.


Lemma price_loop_preserves (I : ProductDetails -> Prop) (page : Page)
    (selectors : list string) :
  (forall selector v d,
      In selector selectors -> price_found page selector v ->
      I d -> I (with_price v d)) ->
  preserves I (price_loop page selectors).
Proof.
  induction selectors as [| selector rest IH]; intros Hset.
  - apply preserves_ret.
  - intros d Hd.
    destruct (page selector) as [element | e] eqn:Hpage.
    + destruct (parse_price (text_of element)) as [v | e] eqn:Hp.
      * rewrite (price_loop_found page selector rest d v) by (exists element; auto).
        cbn. apply (Hset selector); [left; reflexivity | exists element; auto | exact Hd].
      * cbn [price_loop]; unfold mbind at 1, Scrape_bind at 1, lift, _wait_and_get_element.
        rewrite Hpage. unfold mbind at 1, Scrape_bind at 1, try_except.
        unfold mbind at 1, Scrape_bind at 1, lift.
        fold (text_of element). rewrite Hp.
        destruct e; cbn; try exact Hd.
        apply IH; [| exact Hd]. intros s v d' Hin. apply Hset. right. exact Hin.
    + cbn [price_loop]; unfold mbind at 1, Scrape_bind at 1, lift, _wait_and_get_element.
      rewrite Hpage. destruct e; cbn; try exact Hd.
      apply IH; [| exact Hd]. intros s v d' Hin. apply Hset. right. exact Hin.
Qed.

Lemma review_step_preserves (I : ProductDetails -> Prop) (page : Page)
    (selector : string) :
  (forall element n d,
      page selector = Return element ->
      parse_review_count (text_of element) = Return n ->
      I d -> I (with_review_count n d)) ->
  preserves I (review_step page selector).
Proof.
  intros Hset d Hd. unfold review_step, mbind at 1, Scrape_bind at 1, lift,
    _wait_and_get_element.
  destruct (page selector) as [element | e] eqn:Hpage.
  - unfold try_except, mbind, Scrape_bind. fold (text_of element).
    destruct (parse_review_count (text_of element)) as [n | e] eqn:Hp; cbn.
    + apply (Hset element); auto.
    + destruct e; exact Hd.
  - destruct e; exact Hd.
Qed.

Lemma amazon_stock_step_preserves (I : ProductDetails -> Prop) (page : Page) :
  (forall s d, I d -> I (with_stock_status s d)) ->
  preserves I (AmazonScraper.stock_step page).
Proof.
  intros Hset d Hd. unfold AmazonScraper.stock_step, mbind, Scrape_bind, lift,
    _wait_and_get_element.
  destruct (page _) as [element | e]; [apply Hset, Hd |].
  destruct e; exact Hd.
Qed.

Lemma flipkart_stock_step_preserves (I : ProductDetails -> Prop) (page : Page) :
  (forall s d, I d -> I (with_stock_status s d)) ->
  preserves I (FlipkartScraper.stock_step page).
Proof.
  intros Hset d Hd. unfold FlipkartScraper.stock_step, mbind, Scrape_bind, lift,
    _wait_and_get_element.
  destruct (page _) as [element | e]; [apply Hset, Hd |].
  destruct e; cbn; try exact Hd. apply Hset, Hd.
Qed.

Lemma amazon_rating_step_preserves (I : ProductDetails -> Prop) (page : Page) :
  (forall element v d,
      page "span.a-icon-alt" = Return element ->
      AmazonScraper.parse_rating (text_of element) = Return v ->
      I d -> I (with_rating v d)) ->
  preserves I (AmazonScraper.rating_step page).
Proof.
  intros Hset d Hd. unfold AmazonScraper.rating_step, mbind at 1, Scrape_bind at 1,
    lift, _wait_and_get_element.
  destruct (page _) as [element | e] eqn:Hpage.
  - unfold try_except, mbind, Scrape_bind. fold (text_of element).
    destruct (AmazonScraper.parse_rating (text_of element)) as [v | e] eqn:Hp; cbn.
    + apply (Hset element); auto.
    + destruct e; exact Hd.
  - destruct e; exact Hd.
Qed.

Lemma flipkart_rating_step_preserves (I : ProductDetails -> Prop) (page : Page) :
  (forall element v d,
      page "div.XQDdHH" = Return element ->
      FlipkartScraper.parse_rating (text_of element) = Return v ->
      I d -> I (with_rating v d)) ->
  preserves I (FlipkartScraper.rating_step page).
Proof.
  intros Hset d Hd. unfold FlipkartScraper.rating_step, mbind at 1, Scrape_bind at 1,
    lift, _wait_and_get_element.
  destruct (page _) as [element | e] eqn:Hpage.
  - unfold try_except, mbind, Scrape_bind. fold (text_of element).
    destruct (FlipkartScraper.parse_rating (text_of element)) as [v | e] eqn:Hp; cbn.
    + apply (Hset element); auto.
    + destruct e; exact Hd.
  - destruct e; exact Hd.
Qed.

(** What a scraper can assign, from what the page shows: the price parsed
    on an element of one of its price locators, any stock text, the rating
    and the review count parsed on the element of their locator. A property
    kept by these assignments is kept by the whole body. *)
Lemma body_preserves (I : ProductDetails -> Prop) (scraper : Scraper) (u : string) :
  (forall page selector element v d,
      get (driver_of scraper) u = Return page ->
      In selector (price_selectors_of scraper) ->
      page selector = Return element ->
      parse_price (text_of element) = Return v ->
      I d -> I (with_price v d)) ->
  (forall s d, I d -> I (with_stock_status s d)) ->
  (forall page element v d,
      get (driver_of scraper) u = Return page ->
      page (rating_selector_of scraper) = Return element ->
      parse_rating_of scraper (text_of element) = Return v ->
      I d -> I (with_rating v d)) ->
  (forall page element n d,
      get (driver_of scraper) u = Return page ->
      page (review_selector_of scraper) = Return element ->
      parse_review_count (text_of element) = Return n ->
      I d -> I (with_review_count n d)) ->
  preserves I (body_of scraper u).
Proof.
  intros Hprice Hstock Hrating Hreview.
  destruct scraper as [driver | driver];
    cbn [body_of driver_of parse_rating_of price_selectors_of
         rating_selector_of review_selector_of] in *.
  - unfold AmazonScraper.body. intros d Hd.
    unfold mbind at 1, Scrape_bind at 1, lift.
    destruct (get driver u) as [page | e] eqn:Hget; [| exact Hd].
    revert d Hd. change (preserves I
      (price_loop page AmazonScraper.price_selectors;;
       AmazonScraper.stock_step page;;
       AmazonScraper.rating_step page;;
       review_step page "#acrCustomerReviewText")).
    apply preserves_bind.
    { apply price_loop_preserves. intros s v d Hin (element & H1 & H2). eauto. }
    intros _. apply preserves_bind.
    { apply amazon_stock_step_preserves. exact Hstock. }
    intros _. apply preserves_bind.
    { apply amazon_rating_step_preserves. eauto. }
    intros _. apply review_step_preserves. eauto.
  - unfold FlipkartScraper.body. intros d Hd.
    unfold mbind at 1, Scrape_bind at 1, lift.
    destruct (get driver u) as [page | e] eqn:Hget; [| exact Hd].
    revert d Hd. change (preserves I
      (price_loop page FlipkartScraper.price_selectors;;
       FlipkartScraper.stock_step page;;
       FlipkartScraper.rating_step page;;
       review_step page "span.Y1HWO0")).
    apply preserves_bind.
    { apply price_loop_preserves. intros s v d Hin (element & H1 & H2). eauto. }
    intros _. apply preserves_bind.
    { apply flipkart_stock_step_preserves. exact Hstock. }
    intros _. apply preserves_bind.
    { apply flipkart_rating_step_preserves. eauto. }
    intros _. apply review_step_preserves. eauto.
Qed.

Lemma scrape_product_state (cls : ProductDetails_class) (scraper : Scraper)
    (now : datetime) (u : string) :
  scrape_product cls scraper now u =
  Return (body_of scraper u (ProductDetails_init cls now (platform_name scraper) u)).2.
Proof.
  destruct scraper; cbn; apply run_scrape_state.
Qed.





(** ** The records of the scrapers *)

(** C9. Whatever fails during a scrape (the navigation, a lookup, a parse),
    [scrape_product] raises nothing: it returns the record in the state the
    body left it, with [platform] and [url] as set at construction; when the
    navigation itself fails, every other field is at its default. *)
Theorem scrape_product_never_raises (cls : ProductDetails_class)
    (scraper : Scraper) (now : datetime) (u : string) :
  exists d,
    scrape_product cls scraper now u = Return d
    /\ platform d = platform_name scraper
    /\ url d = u
    /\ d = (body_of scraper u
              (ProductDetails_init cls now (platform_name scraper) u)).2
    /\ match get (driver_of scraper) u with
       | Raise _ => d = ProductDetails_init cls now (platform_name scraper) u
       | Return _ => True
       end.
Proof.
  eexists. split; [apply scrape_product_state |].
  set (d0 := ProductDetails_init cls now (platform_name scraper) u).
  assert (H : platform (body_of scraper u d0).2 = platform_name scraper
              /\ url (body_of scraper u d0).2 = u).
  { apply (body_preserves
             (fun d => platform d = platform_name scraper /\ url d = u));
      try (intros; assumption); split; reflexivity. }
  destruct H as [Hp Hu]. repeat split; try assumption.
  destruct scraper as [driver | driver]; cbn [driver_of body_of];
    [unfold AmazonScraper.body | unfold FlipkartScraper.body];
    unfold mbind at 1, Scrape_bind at 1, lift;
    destruct (get driver u); [exact Logic.I | reflexivity | exact Logic.I | reflexivity].
Qed.

Lemma scrape_product_timestamp (cls : ProductDetails_class) (scraper : Scraper)
    (now : datetime) (u : string) (d : ProductDetails) :
  scrape_product cls scraper now u = Return d ->
  timestamp d = default_timestamp cls.
Proof.
  rewrite scrape_product_state. intros [= <-].
  apply (body_preserves (fun d => timestamp d = default_timestamp cls));
    try (intros; assumption); reflexivity.
Qed.

Lemma collect_results_timestamp (cls : ProductDetails_class)
    (scrapers : gmap string Scraper) (clock : nat -> datetime)
    (items : list (string * string)) :
  forall k r,
    In r (collect_results cls scrapers clock k items) ->
    timestamp r = default_timestamp cls.
Proof.
  induction items as [| [pf u] rest IH]; intros k r; cbn [collect_results].
  - intros [].
  - destruct (scrapers !! pf) as [scraper |]; [| apply IH].
    destruct (scrape_product cls scraper (clock k) u) as [d | e] eqn:Hs; [| apply IH].
    intros [<- | Hin]; [| exact (IH _ _ Hin)].
    exact (scrape_product_timestamp _ _ _ _ _ Hs).
Qed.

(** C10. The default of [timestamp] is computed once, by the class
    statement, and every construction copies it: any two records collected
    in one run carry the same timestamp, the time the class was defined,
    whatever the clock read when they were constructed. *)
Theorem records_share_timestamp (import_time : datetime)
    (scrapers : gmap string Scraper) (clock : nat -> datetime)
    (urls : list (string * string)) (r1 r2 : ProductDetails) :
  let cls := define_ProductDetails import_time in
  In r1 (collect_results cls scrapers clock O urls) ->
  In r2 (collect_results cls scrapers clock O urls) ->
  timestamp r1 = timestamp r2
  /\ timestamp r1 = strftime import_time
  /\ (forall now1 now2 p1 u1 p2 u2,
        timestamp (ProductDetails_init cls now1 p1 u1) =
        timestamp (ProductDetails_init cls now2 p2 u2)).
Proof.
  intros cls H1 H2.
  apply collect_results_timestamp in H1, H2.
  rewrite H1, H2. repeat split; reflexivity.
Qed.

(** C7, evaluated on a run: the class is defined at 09:00:00, the two
    records are constructed at 09:05:10 and 09:05:20; both carry
    09:00:00. *)
Example timestamp_is_class_definition_time :
  let cls := define_ProductDetails (sample_time 9 0 0) in
  map timestamp (collect_results cls sample_scrapers sample_clock O sample_urls)
  = [ "2024-03-07 09:00:00"; "2024-03-07 09:00:00" ]
  /\ map strftime [ sample_clock 0; sample_clock 1 ]
     = [ "2024-03-07 09:05:10"; "2024-03-07 09:05:20" ].
Proof. vm_compute. split; reflexivity. Qed.

Lemma records_share_timestamp_witness :
  let cls := define_ProductDetails (sample_time 9 0 0) in
  let results := collect_results cls sample_scrapers sample_clock O sample_urls in
  exists r1 r2,
    results = [r1; r2]
    /\ timestamp r1 = timestamp r2
    /\ timestamp r1 = "2024-03-07 09:00:00".
Proof.
  intros cls results.
  destruct results as [| r1 [| r2 [| r3 rest]]] eqn:E;
    try (vm_compute in E; discriminate E).
  exists r1, r2. split; [reflexivity |].
  assert (H1 : In r1 (collect_results cls sample_scrapers sample_clock O sample_urls)).
  { fold results. rewrite E. left. reflexivity. }
  assert (H2 : In r2 (collect_results cls sample_scrapers sample_clock O sample_urls)).
  { fold results. rewrite E. right. left. reflexivity. }
  destruct (records_share_timestamp (sample_time 9 0 0) sample_scrapers sample_clock
              sample_urls r1 r2 H1 H2) as (Heq & Ht & _).
  split; [exact Heq | exact Ht].
Defined.

(** ** What the parsers raise *)

Lemma py_float_raises (s : string) (e : exn) :
  PyStr.py_float s = Raise e -> e = ValueError.
Proof.
  unfold PyStr.py_float.
  destruct (PyStr.parse_sign (PyStr.strip s)) as [sg r].
  destruct (_ || _)%bool; [discriminate |].
  destruct (String.eqb _ _); [discriminate |].
  destruct (PyStr.parse_number r) as [[[m k] r'] |]; [| congruence].
  destruct (PyStr.parse_exponent r'); [discriminate | congruence].
Qed.

Lemma parse_price_raises (t : string) (e : exn) :
  parse_price t = Raise e -> e = ValueError.
Proof. apply py_float_raises. Qed.

Lemma amazon_parse_rating_raises (t : string) (e : exn) :
  AmazonScraper.parse_rating t = Raise e -> e = ValueError \/ e = IndexError.
Proof.
  unfold AmazonScraper.parse_rating, PyStr.first_item.
  destruct (PyStr.split t) as [| tok rest].
  - intros [= <-]. right. reflexivity.
  - intros H. left. exact (py_float_raises _ _ H).
Qed.

(** ** The steps, when the waits end without a driver error *)

Lemma price_loop_returns (page : Page) (selectors : list string) d :
  waits_end page selectors ->
  (price_loop page selectors d).1 = Return tt.
Proof.
  induction selectors as [| selector rest IH]; intros Hw; [reflexivity |].
  assert (Hrest : waits_end page rest).
  { intros s e Hin. apply Hw. right. exact Hin. }
  destruct (page selector) as [element | e] eqn:Hpage.
  - destruct (parse_price (text_of element)) as [v | e] eqn:Hp.
    + rewrite (price_loop_found page selector rest d v) by (exists element; auto).
      reflexivity.
    + pose proof (parse_price_raises _ _ Hp) as ->.
      rewrite price_loop_skip by (right; eauto). auto.
  - rewrite (Hw selector e) in Hpage by (auto; left; reflexivity).
    rewrite price_loop_skip by (left; exact Hpage). auto.
Qed.

Lemma price_loop_state (page : Page) (selectors : list string) d :
  waits_end page selectors ->
  price_loop page selectors d = (Return tt, (price_loop page selectors d).2).
Proof.
  intros Hw. pose proof (price_loop_returns page selectors d Hw) as H.
  destruct (price_loop page selectors d) as [r d']. cbn in *. congruence.
Qed.



Lemma amazon_rating_step_run (page : Page) (element : WebElement) d :
  page "span.a-icon-alt" = Return element ->
  AmazonScraper.rating_step page d
  = (Return tt,
     match AmazonScraper.parse_rating (text_of element) with
     | Return v => with_rating v d
     | Raise _ => d
     end).
Proof.
  intros Hpage. unfold AmazonScraper.rating_step, mbind, Scrape_bind, lift,
    _wait_and_get_element, try_except.
  rewrite Hpage. fold (text_of element).
  destruct (AmazonScraper.parse_rating (text_of element)) as [v | e] eqn:Hp;
    [reflexivity |].
  destruct (amazon_parse_rating_raises _ _ Hp) as [-> | ->]; reflexivity.
Qed.

Lemma flipkart_rating_step_run (page : Page) (element : WebElement) d :
  page "div.XQDdHH" = Return element ->
  FlipkartScraper.rating_step page d
  = (Return tt,
     match FlipkartScraper.parse_rating (text_of element) with
     | Return v => with_rating v d
     | Raise _ => d
     end).
Proof.
  intros Hpage. unfold FlipkartScraper.rating_step, mbind, Scrape_bind, lift,
    _wait_and_get_element, try_except.
  rewrite Hpage. fold (text_of element).
  destruct (FlipkartScraper.parse_rating (text_of element)) as [v | e] eqn:Hp;
    [reflexivity |].
  rewrite (py_float_raises _ _ Hp). reflexivity.
Qed.





(** ** The rating *)






(** ** The domains of the numeric fields *)





(** ** The scans of [min] and [max] *)

Section FirstBest.

Context {A : Type} (beats : A -> A -> bool) (ok : A -> Prop).

Hypothesis beats_trans :
  forall x y z, beats x y = true -> beats y z = true -> beats x z = true.

Hypothesis beats_le :
  forall x y z, ok z -> beats x y = true -> beats z y = false -> beats x z = true.




End FirstBest.



(** ** The report *)

Ltac report_lookup :=
  repeat (rewrite lookup_insert_eq
          || (rewrite lookup_insert_ne by discriminate)
          || rewrite lookup_empty).

Lemma valid_results_nil (results : list ProductDetails) :
  valid_results results = [] <->
  (forall r, In r results -> PyFloat.gt_zero (price r) = false).
Proof.
  unfold valid_results. split.
  - intros Hnil r Hin. destruct (PyFloat.gt_zero (price r)) eqn:Hr; [| reflexivity].
    assert (Hv : In r (List.filter is_valid results)).
    { apply List.filter_In. split; assumption. }
    rewrite Hnil in Hv. destruct Hv.
  - intros Hall. induction results as [| r rest IH]; [reflexivity |].
    cbn [List.filter]. unfold is_valid at 1.
    rewrite (Hall r) by (left; reflexivity).
    apply IH. intros r' Hin. apply Hall. right. exact Hin.
Qed.


Lemma build_analysis_empty (now : datetime) (results : list ProductDetails) :
  valid_results results = [] ->
  build_analysis now results
  = Return (<["error" := PStr no_valid_prices]>
              (<["error" := PNone]>
                 (<["all_results" := PList (map vars results)]>
                    (<["timestamp" := PStr (strftime now)]> ∅)))).
Proof. intros H. unfold build_analysis. rewrite H. reflexivity. Qed.

Lemma build_analysis_valid (now : datetime) (results : list ProductDetails) :
  valid_results results <> [] ->
  exists best_price highest_rated,
    py_min price (valid_results results) = Return best_price
    /\ py_max rating (valid_results results) = Return highest_rated
    /\ build_analysis now results
       = Return (<["average_rating" := average_rating (valid_results results)]>
                   (<["highest_rated" := highest_rated_entry highest_rated]>
                      (<["best_price" := best_price_entry best_price]>
                         (<["error" := PNone]>
                            (<["all_results" := PList (map vars results)]>
                               (<["timestamp" := PStr (strftime now)]> ∅)))))).
Proof.
  intros H. unfold build_analysis.
  destruct (valid_results results) as [| r rest]; [congruence |].
  do 2 eexists. repeat split.
Qed.

Lemma build_analysis_error_rule (now : datetime) (results : list ProductDetails) :
  follows_error_rule results (build_analysis now results).
Proof.
  unfold follows_error_rule.
  destruct (valid_results results) as [| r0 rest] eqn:Hvalid.
  - rewrite (build_analysis_empty now results Hvalid).
    eexists. split; [reflexivity |]. split.
    + intros _. report_lookup. repeat split.
    + intros (r & Hin & Hr).
      rewrite (proj1 (valid_results_nil results) Hvalid r Hin) in Hr. discriminate Hr.
  - destruct (build_analysis_valid now results) as (b & h & _ & _ & ->);
      [congruence |].
    eexists. split; [reflexivity |]. split.
    + intros Hall. apply valid_results_nil in Hall. congruence.
    + intros _. report_lookup. repeat split; eexists; reflexivity.
Qed.

(** C2. In every run of the aggregator: when no collected record has a
    price above [0], the [error] field of the report is exactly
    "No valid prices found across platforms" and the keys [best_price],
    [highest_rated] and [average_rating] are absent; when some record has a
    price above [0], the three keys are present and [error] is [None]. This
    holds of the report built from any list of records, and so of
    [analyze_product] on the records it collects. *)
Theorem analysis_error_rule :
  (forall now results, follows_error_rule results (build_analysis now results))
  /\ (forall cls scrapers clock urls,
        follows_error_rule (collect_results cls scrapers clock O urls)
          (analyze_product cls scrapers clock urls)).
Proof.
  split.
  - apply build_analysis_error_rule.
  - intros cls scrapers clock urls. apply build_analysis_error_rule.
Qed.








(** ** The theorems on a sample report *)


Lemma analysis_error_rule_witness :
  exists analysis,
    build_analysis (sample_time 9 5 30) sample_results = Return analysis
    /\ is_Some (analysis !! "best_price")
    /\ is_Some (analysis !! "highest_rated")
    /\ is_Some (analysis !! "average_rating")
    /\ analysis !! "error" = Some PNone.
Proof.
  destruct (proj1 analysis_error_rule (sample_time 9 5 30) sample_results)
    as (analysis & Hrun & _ & Hsome).
  exists analysis. split; [exact Hrun |].
  apply Hsome. eexists. split; [left; reflexivity | vm_compute; reflexivity].
Defined.



(** * Further properties of the scrapers *)

(** ** Driver errors in the price loop *)

(** X1. The price loop ends with an exception only when the wait of one of
    its locators ends with a driver error other than the timeout; that
    error is the one raised, and the record is left as it was: a price is
    assigned only by the turn that ends the loop. *)
Theorem price_loop_raises_driver_error (page : Page) (selectors : list string)
    (d d' : ProductDetails) (e : exn) :
  price_loop page selectors d = (Raise e, d') ->
  d' = d
  /\ e <> TimeoutException
  /\ exists selector, In selector selectors /\ page selector = Raise e.
Proof.
  induction selectors as [| selector rest IH]; [discriminate |].
  destruct (page selector) as [element | e0] eqn:Hpage.
  - destruct (parse_price (text_of element)) as [v | e1] eqn:Hp.
    + rewrite (price_loop_found page selector rest d v) by (exists element; auto).
      discriminate.
    + pose proof (parse_price_raises _ _ Hp) as ->.
      rewrite price_loop_skip by (right; eauto).
      intros H. destruct (IH H) as (Hd & He & s & Hin & Hs).
      split; [exact Hd |]. split; [exact He |]. exists s. split; [right |]; assumption.
  - destruct e0.
    1: { rewrite price_loop_skip by (left; exact Hpage).
         intros H. destruct (IH H) as (Hd & He & s & Hin & Hs).
         split; [exact Hd |]. split; [exact He |].
         exists s. split; [right |]; assumption. }
    all: cbn [price_loop]; unfold mbind, Scrape_bind, lift, _wait_and_get_element;
      rewrite Hpage; intros [= <- <-];
      (split; [reflexivity |]); (split; [discriminate |]);
      exists selector; (split; [left; reflexivity | exact Hpage]).
Qed.

Lemma price_loop_raises_driver_error_witness :
  exists selector,
    In selector [ "div.C7fEHH "; "span.a-price[data-a-size=xl] "; "span.a-price-whole" ]
    /\ sample_broken_page selector = Raise WebDriverException.
Proof.
  refine (proj2 (proj2 (price_loop_raises_driver_error sample_broken_page
            [ "div.C7fEHH "; "span.a-price[data-a-size=xl] "; "span.a-price-whole" ]
            (sample_record "Amazon") (sample_record "Amazon") WebDriverException _))).
  vm_compute. reflexivity.
Defined.

(** ** Elements whose text cannot be read *)

(** X2. When reading the text of an element raises, the scrapers go on as
    if the text were empty: the price loop passes to the next locator, and
    the rating and the review count keep their value. *)
Theorem unreadable_text_is_skipped (page : Page) (selector : string)
    (rest : list string) (d : ProductDetails) (e : exn) :
  page selector = Return (Element (Raise e)) ->
  price_loop page (selector :: rest) d = price_loop page rest d
  /\ review_step page selector d = (Return tt, d)
  /\ (selector = "span.a-icon-alt" ->
      AmazonScraper.rating_step page d = (Return tt, d))
  /\ (selector = "div.XQDdHH" ->
      FlipkartScraper.rating_step page d = (Return tt, d)).
Proof.
  intros Hpage. split; [| split; [| split]].
  - apply price_loop_skip. right. eexists. split; [exact Hpage | reflexivity].
  - unfold review_step, mbind, Scrape_bind, lift, _wait_and_get_element, try_except.
    rewrite Hpage. reflexivity.
  - intros ->. rewrite (amazon_rating_step_run page _ d Hpage). reflexivity.
  - intros ->. rewrite (flipkart_rating_step_run page _ d Hpage). reflexivity.
Qed.

Lemma unreadable_text_is_skipped_witness :
  FlipkartScraper.rating_step sample_unreadable_page (sample_record "Flipkart")
  = (Return tt, sample_record "Flipkart").
Proof.
  refine (proj2 (proj2 (proj2 (unreadable_text_is_skipped sample_unreadable_page
            "div.XQDdHH" [] (sample_record "Flipkart") WebDriverException _))) _);
    reflexivity.
Defined.

(** ** The steps before and after a lookup *)





Lemma bind_assoc_unit_rev (c1 c2 : Scrape unit) (k : Scrape unit) d :
  ((c1;; c2);; k) d = (c1;; c2;; k) d.
Proof. symmetry. apply bind_assoc_unit. Qed.

(** The body of a scraper, cut after the stock step. *)
Lemma body_split (scraper : Scraper) (u : string) (page : Page) d :
  get (driver_of scraper) u = Return page ->
  body_of scraper u d
  = ((price_loop page (price_selectors_of scraper);;
      match scraper with
      | Amazon _ => AmazonScraper.stock_step page
      | Flipkart _ => FlipkartScraper.stock_step page
      end);;
     (match scraper with
      | Amazon _ => AmazonScraper.rating_step page
      | Flipkart _ => FlipkartScraper.rating_step page
      end;;
      review_step page (review_selector_of scraper))) d.
Proof.
  intros Hget.
  destruct scraper as [driver | driver];
    cbn [body_of driver_of price_selectors_of review_selector_of] in *;
    [unfold AmazonScraper.body | unfold FlipkartScraper.body];
    unfold mbind at 1, Scrape_bind at 1, lift; rewrite Hget;
    apply bind_assoc_unit.
Qed.



(** ** The stock status of the first site *)




(** ** The review count *)



(** ** A scrape cut short *)

(** X5. When the wait for the stock element ends with a driver error, the
    scrape stops there and the record returned is the one the price loop
    left: the price found is kept, and the stock status, the rating and the
    review count are at their defaults. *)
Theorem driver_error_keeps_price (cls : ProductDetails_class) (scraper : Scraper)
    (now : datetime) (u : string) (page : Page) (e : exn) :
  get (driver_of scraper) u = Return page ->
  waits_end page (price_selectors_of scraper) ->
  page (stock_selector_of scraper) = Raise e ->
  e <> TimeoutException ->
  exists d,
    scrape_product cls scraper now u = Return d
    /\ d = (price_loop page (price_selectors_of scraper)
              (ProductDetails_init cls now (platform_name scraper) u)).2
    /\ stock_status d = "Unknown"
    /\ rating d = PyFloat.zero
    /\ review_count d = 0.
Proof.
  intros Hget Hw Hp He.
  eexists. split; [apply scrape_product_state |].
  set (d0 := ProductDetails_init cls now (platform_name scraper) u).
  assert (Hkeep : stock_status (price_loop page (price_selectors_of scraper) d0).2
                  = "Unknown"
                  /\ rating (price_loop page (price_selectors_of scraper) d0).2
                     = PyFloat.zero
                  /\ review_count (price_loop page (price_selectors_of scraper) d0).2
                     = 0).
  { apply (price_loop_preserves
             (fun x => stock_status x = "Unknown" /\ rating x = PyFloat.zero
                       /\ review_count x = 0));
      [intros; assumption | repeat split]. }
  set (d1 := (price_loop page (price_selectors_of scraper) d0).2) in *.
  assert (Hbody : body_of scraper u d0 = (Raise e, d1)).
  { rewrite (body_split scraper u page d0 Hget).
    apply bind_Raise. rewrite (seq_Return _ _ _ _ (price_loop_state page _ d0 Hw)).
    fold d1.
    destruct scraper as [driver | driver]; cbn [stock_selector_of] in Hp;
      [unfold AmazonScraper.stock_step | unfold FlipkartScraper.stock_step];
      unfold mbind, Scrape_bind, lift, _wait_and_get_element;
      rewrite Hp; destruct e; congruence. }
  rewrite Hbody. cbn [snd]. split; [reflexivity | exact Hkeep].
Qed.

Lemma driver_error_keeps_price_witness :
  exists d,
    scrape_product (define_ProductDetails (sample_time 9 0 0))
      (Amazon (sample_driver sample_amazon_page_lost)) (sample_time 9 5 10) "u"
    = Return d
    /\ price d = PyFloat.of_decimal false 12990000 (-2)
    /\ stock_status d = "Unknown".
Proof.
  destruct (driver_error_keeps_price (define_ProductDetails (sample_time 9 0 0))
              (Amazon (sample_driver sample_amazon_page_lost)) (sample_time 9 5 10)
              "u" sample_amazon_page_lost WebDriverException)
    as (d & Hd & Hloop & Hs & _).
  - reflexivity.
  - intros s e Hin Hp. cbn in Hin.
    destruct Hin as [<- | [<- | [<- | []]]]; vm_compute in Hp; congruence.
  - reflexivity.
  - discriminate.
  - exists d. split; [exact Hd |]. split; [| exact Hs].
    rewrite Hloop. vm_compute. reflexivity.
Defined.

(** ** The records collected by the analyzer *)

Lemma scrape_product_platform_url (cls : ProductDetails_class) (scraper : Scraper)
    (now : datetime) (u : string) :
  exists d,
    scrape_product cls scraper now u = Return d
    /\ platform d = platform_name scraper /\ url d = u.
Proof.
  eexists. split; [apply scrape_product_state |].
  apply (body_preserves (fun d => platform d = platform_name scraper /\ url d = u));
    try (intros; assumption); split; reflexivity.
Qed.

(** X6. The analyzer collects exactly one record for every entry of
    [urls] whose key names a scraper, in the order of [urls], carrying the
    platform name of that scraper and the url of the entry; an entry with
    another key is passed over. With the scrapers of [ProductAnalyzer] the
    keys are "amazon" and "flipkart" and no other. *)
Theorem collect_results_one_per_scraper (cls : ProductDetails_class)
    (scrapers : gmap string Scraper) (clock : nat -> datetime) (k : nat)
    (urls : list (string * string)) :
  map (fun r => (platform r, url r)) (collect_results cls scrapers clock k urls)
  = omap (fun item => (fun s => (platform_name s, item.2)) <$> scrapers !! item.1) urls
  /\ (forall amazon flipkart pf,
        is_Some (ProductAnalyzer_init amazon flipkart !! pf)
        <-> pf = "amazon" \/ pf = "flipkart").
Proof.
  split.
  - revert k. induction urls as [| [pf u] rest IH]; intros k; [reflexivity |].
    cbn [collect_results omap list_omap fst snd].
    destruct (scrapers !! pf) as [scraper |] eqn:Hs; cbn [fmap option_fmap option_map].
    + destruct (scrape_product_platform_url cls scraper (clock k) u)
        as (d & -> & Hp & Hu).
      cbn [map]. rewrite Hp, Hu, IH. reflexivity.
    + apply IH.
  - intros amazon flipkart pf. unfold ProductAnalyzer_init. split.
    + intros [s Hs].
      destruct (decide (pf = "flipkart")) as [-> | Hf]; [right; reflexivity |].
      rewrite lookup_insert_ne in Hs by congruence.
      destruct (decide (pf = "amazon")) as [-> | Ha]; [left; reflexivity |].
      rewrite lookup_insert_ne in Hs by congruence.
      rewrite lookup_empty in Hs. discriminate Hs.
    + intros [-> | ->].
      * rewrite lookup_insert_ne by discriminate. rewrite lookup_insert_eq. eauto.
      * rewrite lookup_insert_eq. eauto.
Qed.

(** ** The keys of the report *)

(** X7. The report always has the keys [timestamp], [all_results] and
    [error]; [timestamp] is the clock reading when the report is built,
    [all_results] has one entry per collected record, valid or not, in
    order. The keys [best_price], [highest_rated] and [average_rating] are
    added when some record is valid, and the report has no other key. *)
Theorem report_keys (now : datetime) (results : list ProductDetails) :
  exists analysis,
    build_analysis now results = Return analysis
    /\ analysis !! "timestamp" = Some (PStr (strftime now))
    /\ analysis !! "all_results" = Some (PList (map vars results))
    /\ dom analysis
       = ({[ "timestamp"; "all_results"; "error" ]} : gset string)
         ∪ (match valid_results results with
            | [] => ∅
            | _ :: _ => {[ "best_price"; "highest_rated"; "average_rating" ]}
            end).
Proof.
  destruct (valid_results results) as [| r0 rest] eqn:Hvalid.
  - rewrite (build_analysis_empty now results Hvalid).
    eexists. split; [reflexivity |].
    split; [report_lookup; reflexivity |].
    split; [report_lookup; reflexivity |].
    rewrite !dom_insert_L, dom_empty_L. set_solver.
  - destruct (build_analysis_valid now results) as (b & h & _ & _ & ->);
      [congruence |].
    eexists. split; [reflexivity |].
    split; [report_lookup; reflexivity |].
    split; [report_lookup; reflexivity |].
    rewrite !dom_insert_L, dom_empty_L. set_solver.
Qed.

(** ** Trimmed texts *)




Lemma lstrip_fixed (s : string) : starts_with_space s = false -> PyStr.lstrip s = s.
Proof.
  destruct s as [| c s]; [reflexivity |]. cbn. intros ->. reflexivity.
Qed.

Lemma rstrip_fixed (s : string) : ends_with_space s = false -> PyStr.rstrip s = s.
Proof.
  induction s as [| c s IH]; [reflexivity |].
  cbn [ends_with_space PyStr.rstrip]. destruct s as [| c' s'].
  - cbn. intros ->. reflexivity.
  - intros H. rewrite (IH H). rewrite andb_false_r. reflexivity.
Qed.



(** A property of the stock status that holds of "Unknown" and of every
    value a scraper can assign holds of the record, however the body
    ends. *)
Lemma stock_status_invariant (P : string -> Prop) (scraper : Scraper) (u : string) :
  match scraper with
  | Amazon _ => forall element, P (text_of element)
  | Flipkart _ => P "Out of Stock" /\ P "In Stock"
  end ->
  preserves (fun d => P (stock_status d)) (body_of scraper u).
Proof.
  intros Hvalues d Hd.
  destruct scraper as [driver | driver]; cbn [body_of];
    [unfold AmazonScraper.body | unfold FlipkartScraper.body];
    unfold mbind at 1, Scrape_bind at 1, lift;
    (destruct (get driver u) as [page | e]; [| exact Hd]);
    revert d Hd.
  - change (preserves (fun d => P (stock_status d))
      (price_loop page AmazonScraper.price_selectors;;
       AmazonScraper.stock_step page;;
       AmazonScraper.rating_step page;;
       review_step page "#acrCustomerReviewText")).
    apply preserves_bind; [apply price_loop_preserves; intros; assumption |].
    intros _. apply preserves_bind.
    { intros d Hd. unfold AmazonScraper.stock_step, mbind, Scrape_bind, lift,
        _wait_and_get_element.
      destruct (page _) as [element | e]; [apply (Hvalues element) |].
      destruct e; exact Hd. }
    intros _. apply preserves_bind;
      [apply amazon_rating_step_preserves; intros; assumption |].
    intros _. apply review_step_preserves; intros; assumption.
  - change (preserves (fun d => P (stock_status d))
      (price_loop page FlipkartScraper.price_selectors;;
       FlipkartScraper.stock_step page;;
       FlipkartScraper.rating_step page;;
       review_step page "span.Y1HWO0")).
    apply preserves_bind; [apply price_loop_preserves; intros; assumption |].
    intros _. apply preserves_bind.
    { intros d Hd. unfold FlipkartScraper.stock_step, mbind, Scrape_bind, lift,
        _wait_and_get_element.
      destruct (page _) as [element | e]; [apply Hvalues |].
      destruct e; cbn; first [apply Hvalues | exact Hd]. }
    intros _. apply preserves_bind;
      [apply flipkart_rating_step_preserves; intros; assumption |].
    intros _. apply review_step_preserves; intros; assumption.
Qed.

(** X8. Whatever the browser does, the stock status of a record of the
    second site is one of "Unknown", "Out of Stock" and "In Stock". *)
Theorem flipkart_stock_status_values (cls : ProductDetails_class)
    (driver : Driver) (now : datetime) (u : string) :
  exists d,
    FlipkartScraper.scrape_product cls driver now u = Return d
    /\ (stock_status d = "Unknown"
        \/ stock_status d = "Out of Stock"
        \/ stock_status d = "In Stock").
Proof.
  eexists. split; [apply (scrape_product_state cls (Flipkart driver)) |].
  apply (stock_status_invariant
           (fun s => s = "Unknown" \/ s = "Out of Stock" \/ s = "In Stock")
           (Flipkart driver) u); cbn; auto.
Qed.


(** ** Digits *)

Lemma digit_of_digit_char (k : nat) :
  PyStr.digit_of (digit_char k) = Some (Z.of_nat (k mod 10)).
Proof.
  unfold digit_char.
  assert (H : (k mod 10 < 10)%nat) by (apply Nat.mod_upper_bound; discriminate).
  remember (k mod 10)%nat as j eqn:Hj. clear Hj.
  do 10 (destruct j as [| j]; [reflexivity |]). lia.
Qed.

Lemma append_cons (x : ascii) (a b : string) :
  String x a +:+ b = String x (a +:+ b).
Proof. reflexivity. Qed.


Lemma append_empty_r (a : string) : a +:+ "" = a.
Proof.
  induction a as [| x a IH]; [reflexivity |].
  rewrite append_cons. f_equal. exact IH.
Qed.

Lemma all_digits_app (a b : string) :
  all_digits (a +:+ b) = all_digits a && all_digits b.
Proof.
  induction a as [| x a IH]; [reflexivity |].
  rewrite append_cons. cbn [all_digits].
  destruct (PyStr.digit_of x); [exact IH | reflexivity].
Qed.

Lemma digits_value_app (a b : string) (acc : Z) :
  all_digits a = true ->
  digits_value acc (a +:+ b) = digits_value (digits_value acc a) b.
Proof.
  revert acc. induction a as [| x a IH]; intros acc Ha; [reflexivity |].
  rewrite append_cons. cbn [all_digits digits_value] in *.
  destruct (PyStr.digit_of x); [apply IH, Ha | discriminate].
Qed.

Lemma digits_fuel_spec (fuel : nat) :
  forall n, 0 <= n < 10 ^ Z.of_nat fuel -> (0 < fuel)%nat ->
    all_digits (digits_fuel fuel n) = true
    /\ digits_value 0 (digits_fuel fuel n) = n
    /\ digits_fuel fuel n <> "".
Proof.
  induction fuel as [| f IH]; intros n Hn Hf; [lia |].
  cbn [digits_fuel].
  assert (Hlast : PyStr.digit_of (digit_char (Z.to_nat (n mod 10))) = Some (n mod 10)).
  { rewrite digit_of_digit_char. f_equal.
    pose proof (Z.mod_pos_bound n 10 ltac:(lia)) as Hm.
    rewrite Nat.mod_small by lia. lia. }
  set (c := digit_char (Z.to_nat (n mod 10))) in *.
  destruct (n <? 10) eqn:Hlt.
  - apply Z.ltb_lt in Hlt.
    change ("" +:+ String c "") with (String c "").
    cbn [all_digits digits_value]. rewrite Hlast.
    rewrite Z.mod_small by lia.
    split; [reflexivity | split; [lia | discriminate]].
  - apply Z.ltb_ge in Hlt.
    assert (Hf' : (0 < f)%nat).
    { destruct f; [| lia]. cbn in Hn. lia. }
    destruct (IH (n / 10)) as (Hd & Hv & Hne); [| exact Hf' |].
    { split; [apply Z.div_pos; lia |].
      apply Z.div_lt_upper_bound; [lia |].
      replace (Z.of_nat (S f)) with (Z.of_nat f + 1) in Hn by lia.
      rewrite Z.pow_add_r in Hn by lia. lia. }
    repeat split.
    + rewrite all_digits_app, Hd. cbn [all_digits andb]. rewrite Hlast. reflexivity.
    + rewrite digits_value_app by exact Hd. rewrite Hv.
      cbn [digits_value]. rewrite Hlast.
      pose proof (Z.div_mod n 10 ltac:(lia)). lia.
    + destruct (digits_fuel f (n / 10)); [congruence | discriminate].
Qed.

Lemma digits_spec (n : Z) :
  0 <= n ->
  all_digits (digits n) = true /\ digits_value 0 (digits n) = n /\ digits n <> "".
Proof.
  intros Hn. apply digits_fuel_spec; [| lia].
  split; [exact Hn |].
  destruct (Z.eq_dec n 0) as [-> | Hne]; [reflexivity |].
  pose proof (Z.log2_spec n ltac:(lia)) as [_ Hlog].
  pose proof (Z.log2_nonneg n) as Hnn.
  replace (Z.of_nat (S (Z.to_nat (Z.log2 n)))) with (Z.succ (Z.log2 n)) by lia.
  eapply Z.lt_le_trans; [exact Hlog |].
  apply Z.pow_le_mono_l. lia.
Qed.

(** ** Reading digits back *)

Lemma digits_from_all_digits (s rest : string) :
  all_digits s = true ->
  (rest = "" \/ exists r, rest = String "." r) ->
  forall acc cnt,
    PyStr.digits_from acc cnt (s +:+ rest)
    = (digits_value acc s, cnt + Z.of_nat (String.length s), rest).
Proof.
  intros Hs Hrest. induction s as [| c s IH]; intros acc cnt.
  - change ("" +:+ rest) with rest. cbn [digits_value String.length].
    rewrite Z.add_0_r. destruct Hrest as [-> | [r ->]]; reflexivity.
  - rewrite append_cons. cbn [all_digits digits_value String.length PyStr.digits_from] in *.
    destruct (PyStr.digit_of c) as [d |]; [| discriminate].
    rewrite IH by exact Hs. f_equal. f_equal. lia.
Qed.

Lemma digitpart_all_digits (s rest : string) :
  all_digits s = true -> s <> "" ->
  (rest = "" \/ exists r, rest = String "." r) ->
  PyStr.digitpart (s +:+ rest)
  = Some (digits_value 0 s, Z.of_nat (String.length s), rest).
Proof.
  intros Hs Hne Hrest. destruct s as [| c s]; [congruence |].
  rewrite append_cons. cbn [all_digits digits_value String.length PyStr.digitpart] in *.
  destruct (PyStr.digit_of c) as [d |]; [| discriminate].
  rewrite (digits_from_all_digits s rest Hs Hrest). f_equal. f_equal. f_equal. lia.
Qed.

Lemma digit_not_sign (c : ascii) (r : string) (d : Z) :
  PyStr.digit_of c = Some d ->
  PyStr.parse_sign (String c r) = (false, String c r).
Proof.
  destruct c as [[] [] [] [] [] [] [] []]; intros H;
    first [discriminate H | reflexivity].
Qed.

Lemma digit_not_space (c : ascii) (d : Z) :
  PyStr.digit_of c = Some d -> PyStr.is_space c = false.
Proof.
  destruct c as [[] [] [] [] [] [] [] []]; intros H;
    first [discriminate H | reflexivity].
Qed.

Lemma all_digits_no_space (s : string) : all_digits s = true -> no_space s = true.
Proof.
  induction s as [| c s IH]; [reflexivity |]. cbn [all_digits no_space].
  destruct (PyStr.digit_of c) as [d |] eqn:Hc; [| discriminate].
  intros Hs. rewrite (digit_not_space c d Hc), (IH Hs). reflexivity.
Qed.

Lemma no_space_app (a b : string) : no_space (a +:+ b) = no_space a && no_space b.
Proof.
  induction a as [| x a IH]; [reflexivity |].
  rewrite append_cons. cbn [no_space]. rewrite IH, andb_assoc. reflexivity.
Qed.

Lemma no_space_ends (s : string) : no_space s = true -> ends_with_space s = false.
Proof.
  induction s as [| c s IH]; [reflexivity |]. cbn [no_space ends_with_space].
  intros H. apply andb_true_iff in H as [Hc Hs].
  destruct s as [| c' s']; [destruct (PyStr.is_space c); [discriminate | reflexivity] |].
  apply IH, Hs.
Qed.

Lemma no_space_starts (s : string) : no_space s = true -> starts_with_space s = false.
Proof.
  destruct s as [| c s]; [reflexivity |]. cbn. intros H.
  apply andb_true_iff in H as [Hc _]. destruct (PyStr.is_space c); [discriminate | reflexivity].
Qed.

Lemma strip_no_space (s : string) : no_space s = true -> PyStr.strip s = s.
Proof.
  intros H. unfold PyStr.strip.
  rewrite (lstrip_fixed _ (no_space_starts s H)).
  apply rstrip_fixed, no_space_ends, H.
Qed.

(** ** The first token *)






(** ** Removing the separators and the currency sign *)

Lemma replace_comma_cons (c : ascii) (s : string) :
  PyStr.replace "," "" (String c s)
  = if Ascii.eqb c "," then PyStr.replace "," "" s
    else String c (PyStr.replace "," "" s).
Proof.
  unfold PyStr.replace. cbn [PyStr.replace_from String.prefix String.length pred].
  destruct (ascii_dec "," c) as [<- | Hne]; [destruct s; reflexivity |].
  destruct (Ascii.eqb_spec c ","); [congruence | reflexivity].
Qed.

Lemma replace_comma_app (a b : string) :
  PyStr.replace "," "" (a +:+ b)
  = PyStr.replace "," "" a +:+ PyStr.replace "," "" b.
Proof.
  induction a as [| c a IH]; [reflexivity |].
  rewrite append_cons, !replace_comma_cons.
  destruct (Ascii.eqb c ","); [exact IH |].
  rewrite append_cons, IH. reflexivity.
Qed.

Lemma replace_comma_lacks (s : string) :
  lacks "," s = true -> PyStr.replace "," "" s = s.
Proof.
  induction s as [| c s IH]; [reflexivity |]. cbn [lacks]. intros H.
  apply andb_true_iff in H as [Hc Hs].
  rewrite replace_comma_cons. rewrite Ascii.eqb_sym in Hc.
  destruct (Ascii.eqb c ","); [discriminate |]. rewrite (IH Hs). reflexivity.
Qed.

Lemma replace_comma_group3 (s : string) :
  lacks "," s = true -> PyStr.replace "," "" (group3 s) = s.
Proof.
  induction s as [| c s IH]; [reflexivity |]. cbn [lacks group3]. intros H.
  apply andb_true_iff in H as [Hc Hs].
  rewrite replace_comma_cons. rewrite Ascii.eqb_sym in Hc.
  destruct (Ascii.eqb c ","); [discriminate |]. f_equal.
  destruct (negb (PyStr.is_empty s) && (String.length s mod 3 =? 0)%nat);
    [| exact (IH Hs)].
  change ("," +:+ group3 s) with (String "," (group3 s)).
  rewrite replace_comma_cons. exact (IH Hs).
Qed.

Lemma replace_rupee_prefix (s : string) :
  PyStr.replace "₹" "" ("₹" +:+ s) = PyStr.replace "₹" "" s.
Proof. destruct s; reflexivity. Qed.

Lemma replace_rupee_ascii7 (s : string) :
  ascii7 s = true -> PyStr.replace "₹" "" s = s.
Proof.
  unfold PyStr.replace. induction s as [| c s IH]; [reflexivity |].
  destruct c as [b0 b1 b2 b3 b4 b5 b6 b7]. cbn [ascii7]. intros H.
  apply andb_true_iff in H as [Hc Hs]. destruct b7; [discriminate |].
  cbn [PyStr.replace_from String.prefix].
  destruct (ascii_dec _ _) as [Heq | _]; [discriminate Heq |].
  rewrite (IH Hs). reflexivity.
Qed.

Lemma digit_facts (c : ascii) (d : Z) :
  PyStr.digit_of c = Some d ->
  Ascii.eqb "," c = false
  /\ ascii7 (String c "") = true
  /\ Ascii.eqb (PyStr.lower_char c) "i" = false
  /\ Ascii.eqb (PyStr.lower_char c) "n" = false.
Proof.
  destruct c as [[] [] [] [] [] [] [] []]; intros H;
    first [discriminate H | repeat split].
Qed.

Lemma all_digits_lacks_comma (s : string) : all_digits s = true -> lacks "," s = true.
Proof.
  induction s as [| c s IH]; [reflexivity |]. cbn [all_digits lacks].
  destruct (PyStr.digit_of c) as [d |] eqn:Hc; [| discriminate].
  intros Hs. destruct (digit_facts c d Hc) as (-> & _). exact (IH Hs).
Qed.

Lemma ascii7_app (a b : string) : ascii7 (a +:+ b) = ascii7 a && ascii7 b.
Proof.
  induction a as [| c a IH]; [reflexivity |].
  rewrite append_cons. destruct c. cbn [ascii7]. rewrite IH, andb_assoc. reflexivity.
Qed.

Lemma all_digits_ascii7 (s : string) : all_digits s = true -> ascii7 s = true.
Proof.
  induction s as [| c s IH]; [reflexivity |]. cbn [all_digits].
  destruct (PyStr.digit_of c) as [d |] eqn:Hc; [| discriminate].
  intros Hs. destruct (digit_facts c d Hc) as (_ & H7 & _).
  change (String c s) with (String c "" +:+ s).
  rewrite ascii7_app, H7, (IH Hs). reflexivity.
Qed.

Lemma ascii7_group3 (s : string) : ascii7 s = true -> ascii7 (group3 s) = true.
Proof.
  induction s as [| c s IH]; [reflexivity |]. destruct c. cbn [ascii7 group3].
  intros H. apply andb_true_iff in H as [Hc Hs]. rewrite Hc. cbn [andb].
  destruct (negb (PyStr.is_empty s) && (String.length s mod 3 =? 0)%nat);
    [| exact (IH Hs)].
  change ("," +:+ group3 s) with (String "," (group3 s)). cbn [ascii7].
  exact (IH Hs).
Qed.



Lemma pad2_spec (n : nat) :
  (n < 100)%nat ->
  all_digits (pad2 n) = true /\ digits_value 0 (pad2 n) = Z.of_nat n
  /\ String.length (pad2 n) = 2%nat.
Proof.
  intros Hn. unfold pad2. cbn [all_digits digits_value String.length].
  rewrite !digit_of_digit_char. repeat split.
  rewrite (Nat.mod_small (n / 10)) by (apply Nat.Div0.div_lt_upper_bound; lia).
  pose proof (Nat.div_mod_eq n 10). lia.
Qed.

(** ** Numerals read back *)

Lemma digitpart_digits (s : string) :
  all_digits s = true -> s <> "" ->
  PyStr.digitpart s = Some (digits_value 0 s, Z.of_nat (String.length s), "").
Proof.
  intros Hs Hne.
  pose proof (digitpart_all_digits s "" Hs Hne (or_introl eq_refl)) as H.
  rewrite append_empty_r in H. exact H.
Qed.


Lemma py_float_numeral (sg : bool) (ip fp : string) :
  all_digits ip = true -> ip <> "" -> all_digits fp = true -> fp <> "" ->
  PyStr.py_float ((if sg then "-" else "") +:+ ip +:+ "." +:+ fp)
  = Return (PyFloat.of_decimal sg
              (digits_value 0 ip * 10 ^ Z.of_nat (String.length fp)
               + digits_value 0 fp)
              (0 - Z.of_nat (String.length fp))).
Proof.
  intros Hi Hine Hf Hfne. unfold PyStr.py_float.
  rewrite strip_no_space.
  2: { rewrite !no_space_app, (all_digits_no_space ip Hi), (all_digits_no_space fp Hf).
       destruct sg; reflexivity. }
  assert (Hsign : PyStr.parse_sign ((if sg then "-" else "") +:+ ip +:+ "." +:+ fp)
                  = (sg, ip +:+ "." +:+ fp)).
  { destruct sg; [reflexivity |].
    change ("" +:+ ip +:+ "." +:+ fp) with (ip +:+ "." +:+ fp).
    destruct ip as [| c r]; [congruence |]. rewrite append_cons.
    cbn in Hi. destruct (PyStr.digit_of c) as [d |] eqn:Hc; [| discriminate].
    apply (digit_not_sign c _ d Hc). }
  rewrite Hsign.
  assert (Hlow : exists c r, PyStr.lower (ip +:+ "." +:+ fp) = String c r
                             /\ Ascii.eqb c "i" = false /\ Ascii.eqb c "n" = false).
  { destruct ip as [| c r]; [congruence |]. rewrite append_cons.
    cbn in Hi. destruct (PyStr.digit_of c) as [d |] eqn:Hc; [| discriminate].
    destruct (digit_facts c d Hc) as (_ & _ & H1 & H2).
    cbn [PyStr.lower]. eauto. }
  destruct Hlow as (c & r & -> & Hci & Hcn).
  cbn [String.eqb]. rewrite Hci, Hcn. cbn [orb].
  unfold PyStr.parse_number.
  change ("." +:+ fp) with (String "." fp).
  rewrite (digitpart_all_digits ip (String "." fp) Hi Hine) by (right; eauto).
  rewrite (digitpart_digits fp Hf Hfne).
  reflexivity.
Qed.

(** ** What [main] prints is read back by the scrapers *)




Lemma div_half_even_nonneg (num den : Z) :
  0 <= num -> 0 < den -> 0 <= PyFloat.div_half_even num den.
Proof.
  intros Hn Hd. unfold PyFloat.div_half_even.
  pose proof (Z.div_pos num den Hn Hd).
  destruct (2 * (num mod den) ?= den); [destruct (Z.even _) | |]; lia.
Qed.

Lemma hundredths_nonneg (m : positive) (e : Z) : 0 <= hundredths m e.
Proof.
  unfold hundredths. destruct (0 <=? e) eqn:He.
  - apply Z.leb_le in He. pose proof (Z.pow_pos_nonneg 2 e). lia.
  - apply Z.leb_gt in He. apply div_half_even_nonneg; [lia |].
    apply Z.pow_pos_nonneg; lia.
Qed.

(** X12. A price printed by [main] as [f"₹{price:,.2f}"] is read back by
    the price parser of the scrapers as the price rounded to two decimals,
    [round(price, 2)]: the currency sign and the thousands separators are
    removed, and the two decimals are the ones the rounding keeps. *)
Theorem printed_price_round_trip (x : PyFloat.float) :
  parse_price ("₹" +:+ format_money x) = Return (PyFloat.round2 x).
Proof.
  unfold parse_price. rewrite replace_rupee_prefix.
  destruct x as [s | s | | s m e]; try (destruct s; vm_compute; reflexivity);
    [vm_compute; reflexivity |].
  unfold format_money, PyFloat.round2. fold (hundredths m e).
  set (n := hundredths m e).
  assert (Hn : 0 <= n) by apply hundredths_nonneg.
  destruct (digits_spec (n / 100)) as (Hd & Hv & Hne); [apply Z.div_pos; lia |].
  pose proof (Z.mod_pos_bound n 100 ltac:(lia)) as Hmod.
  destruct (pad2_spec (Z.to_nat (n mod 100)) ltac:(lia)) as (Hpd & Hpv & Hpl).
  assert (Hpne : pad2 (Z.to_nat (n mod 100)) <> "") by discriminate.
  rewrite replace_rupee_ascii7.
  2: { rewrite !ascii7_app, (ascii7_group3 _ (all_digits_ascii7 _ Hd)),
         (all_digits_ascii7 _ Hpd). destruct s; reflexivity. }
  rewrite !replace_comma_app.
  rewrite (replace_comma_group3 _ (all_digits_lacks_comma _ Hd)).
  rewrite (replace_comma_lacks _ (all_digits_lacks_comma _ Hpd)).
  replace (PyStr.replace "," "" (if s then "-" else ""))
    with (if s then "-" else "") by (destruct s; reflexivity).
  change (PyStr.replace "," "" ".") with ".".
  rewrite (py_float_numeral s _ _ Hd Hne Hpd Hpne).
  rewrite Hv, Hpv, Hpl. f_equal. f_equal.
  change (10 ^ Z.of_nat 2) with 100.
  pose proof (Z.div_mod n 100 ltac:(lia)). lia.
Qed.

(** ** What [main] prints *)

Lemma print_results_vars (results : list ProductDetails) :
  print_results (map vars results) = Some (concat (map record_lines results)).
Proof.
  induction results as [| r rest IH]; [reflexivity |].
  cbn [map print_results]. rewrite IH. reflexivity.
Qed.

Lemma print_summary_built (now : datetime) (results : list ProductDetails) :
  exists report summary,
    build_analysis now results = Return report
    /\ print_summary report = Some (printed summary results)
    /\ match valid_results results with
       | [] => summary = [ [Lit "Error: ";
                            Val "" (PStr "No valid prices found across platforms")] ]
       | _ :: _ =>
           exists best top,
             py_min price (valid_results results) = Return best
             /\ py_max rating (valid_results results) = Return top
             /\ summary
                = comparison_lines best top (average_rating (valid_results results))
       end.
Proof.
  destruct (valid_results results) as [| r0 rest] eqn:Hvalid.
  - rewrite (build_analysis_empty now results Hvalid).
    eexists. eexists. split; [reflexivity |]. split; [| reflexivity].
    unfold print_summary. report_lookup.
    cbn [truthy no_valid_prices PyStr.is_empty negb].
    cbn [line lit field String.eqb fmap option_fmap option_map mbind option_bind].
    cbn [py_iter mbind option_bind].
    rewrite print_results_vars. reflexivity.
  - destruct (build_analysis_valid now results) as (b & h & Hmin & Hmax & ->);
      [congruence |].
    rewrite Hvalid in Hmin, Hmax.
    eexists. eexists. split; [reflexivity |]. split.
    + unfold print_summary. report_lookup.
      cbn [truthy best_price_entry highest_rated_entry field_of subscript assoc
           String.eqb Ascii.eqb Bool.eqb].
      cbn [line lit field String.eqb fmap option_fmap option_map mbind option_bind].
      cbn [py_iter mbind option_bind].
      rewrite print_results_vars. cbn [mbind option_bind].
      reflexivity.
    + exists b, h. split; [exact Hmin |]. split; [exact Hmax |].
      rewrite Hvalid. reflexivity.
Qed.

(** X13. [main] never fails on a report of the analyzer: every key it
    reads is there. When no record is valid it prints the line of the error
    and none of the comparison; otherwise it prints the cheapest record,
    the best rated one and the average rating, and no error. In both cases
    it goes on to print every collected record, valid or not, in order. *)
Theorem print_summary_of_report (now : datetime) (results : list ProductDetails) :
  exists report summary,
    build_analysis now results = Return report
    /\ print_summary report = Some (printed summary results)
    /\ match valid_results results with
       | [] => summary = [ [Lit "Error: ";
                            Val "" (PStr "No valid prices found across platforms")] ]
       | _ :: _ =>
           exists best top,
             py_min price (valid_results results) = Return best
             /\ py_max rating (valid_results results) = Return top
             /\ summary
                = comparison_lines best top (average_rating (valid_results results))
       end.
Proof. apply print_summary_built. Qed.

(** X14. A run of [main] never fails after the browser sessions are open,
    whatever the browsers do: it prints the summary and then the details of
    exactly two records, the one of "Amazon" for the first url and the one
    of "Flipkart" for the second, in this order. *)
Theorem main_prints_both_records (cls : ProductDetails_class)
    (amazon flipkart : Driver) (clock : nat -> datetime) :
  exists ra rf summary,
    main cls amazon flipkart clock = Some (printed summary [ra; rf])
    /\ platform ra = "Amazon"
    /\ url ra = "https://www.amazon.in/Apple-iPhone-15-128GB-Black/dp/B0CHX3QBCH"
    /\ platform rf = "Flipkart"
    /\ url rf
       = "https://www.flipkart.com/apple-iphone-15-black-128-gb/p/itm6ac6485515ae4".
Proof.
  unfold main, analyze_product, main_urls.
  cbn [collect_results]. unfold ProductAnalyzer_init.
  rewrite lookup_insert_ne by discriminate. rewrite !lookup_insert_eq.
  destruct (scrape_product_platform_url cls (Amazon amazon) (clock 0%nat)
              "https://www.amazon.in/Apple-iPhone-15-128GB-Black/dp/B0CHX3QBCH")
    as (ra & -> & Hpa & Hua).
  destruct (scrape_product_platform_url cls (Flipkart flipkart) (clock 1%nat)
              "https://www.flipkart.com/apple-iphone-15-black-128-gb/p/itm6ac6485515ae4")
    as (rf & -> & Hpf & Hur).
  destruct (print_summary_built (clock (length
              [("amazon", "https://www.amazon.in/Apple-iPhone-15-128GB-Black/dp/B0CHX3QBCH");
               ("flipkart",
                "https://www.flipkart.com/apple-iphone-15-black-128-gb/p/itm6ac6485515ae4")]))
              [ra; rf])
    as (report & summary & -> & Hprint & _).
  exists ra, rf, summary. repeat split; assumption.
Qed.

(** ** Further facts on the price text, the records and the report *)

(** X15. In a price text of ASCII characters the commas are ignored
    wherever they stand, so the grouping "1,29,900" reads as "129900", and
    a currency sign in front is ignored as well. *)
Theorem price_text_separators_ignored (a b : string) :
  ascii7 a = true -> ascii7 b = true ->
  parse_price (a +:+ "," +:+ b) = parse_price (a +:+ b)
  /\ parse_price ("₹" +:+ a +:+ "," +:+ b) = parse_price (a +:+ b).
Proof.
  intros Ha Hb. unfold parse_price.
  rewrite replace_rupee_prefix.
  assert (H1 : ascii7 (a +:+ "," +:+ b) = true).
  { rewrite !ascii7_app, Ha, Hb. reflexivity. }
  assert (H2 : ascii7 (a +:+ b) = true).
  { rewrite ascii7_app, Ha, Hb. reflexivity. }
  rewrite (replace_rupee_ascii7 _ H1), (replace_rupee_ascii7 _ H2).
  rewrite !replace_comma_app.
  change (PyStr.replace "," "" ",") with "".
  change ("" +:+ PyStr.replace "," "" b) with (PyStr.replace "," "" b).
  split; reflexivity.
Qed.

Lemma price_text_separators_ignored_witness :
  parse_price "₹1,29,900" = parse_price "129900".
Proof.
  exact (proj2 (price_text_separators_ignored "1" "29900" eq_refl eq_refl)).
Defined.

(** X16. No step of either scraper assigns the seller: whatever the
    browser does, the seller of the record returned is "Unknown". *)
Theorem seller_is_unknown (cls : ProductDetails_class) (scraper : Scraper)
    (now : datetime) (u : string) :
  exists d, scrape_product cls scraper now u = Return d /\ seller d = "Unknown".
Proof.
  eexists. split; [apply scrape_product_state |].
  apply (body_preserves (fun d => seller d = "Unknown"));
    try (intros; assumption); reflexivity.
Qed.

(** X17. When exactly one of the collected records is valid, the report
    takes both [best_price] and [highest_rated] from it, whatever the
    ratings of the other records. *)
Theorem single_valid_record (now : datetime) (results : list ProductDetails)
    (r : ProductDetails) :
  valid_results results = [r] ->
  exists report,
    build_analysis now results = Return report
    /\ report !! "best_price" = Some (best_price_entry r)
    /\ report !! "highest_rated" = Some (highest_rated_entry r)
    /\ report !! "error" = Some PNone.
Proof.
  intros Hvalid.
  destruct (build_analysis_valid now results) as (b & h & Hmin & Hmax & ->);
    [congruence |].
  rewrite Hvalid in Hmin, Hmax. injection Hmin as <-. injection Hmax as <-.
  eexists. split; [reflexivity |]. report_lookup. repeat split.
Qed.

Lemma single_valid_record_witness :
  exists report,
    build_analysis (sample_time 9 5 30)
      [sample_record "Amazon";
       with_price (PyFloat.of_decimal false 79900 (-2)) (sample_record "Flipkart")]
    = Return report
    /\ report !! "best_price"
       = Some (best_price_entry
                 (with_price (PyFloat.of_decimal false 79900 (-2))
                    (sample_record "Flipkart"))).
Proof.
  destruct (single_valid_record (sample_time 9 5 30)
              [sample_record "Amazon";
               with_price (PyFloat.of_decimal false 79900 (-2))
                 (sample_record "Flipkart")]
              (with_price (PyFloat.of_decimal false 79900 (-2))
                 (sample_record "Flipkart")))
    as (report & Hrun & Hbest & _).
  - vm_compute. reflexivity.
  - exists report. split; assumption.
Defined.


